(** * CodeMaster: ledger store, lifecycle engine, payments and referrals

    A shallow embedding of [core/database.py], [core/lifecycle.py],
    [features/payments.py] and [features/referral.py], and the properties
    of the entitlement ledger stated over it.

    Modelling conventions.
    - The SQLite file is a record [DB] of tables.  Every method of the
      source opens its own connection ([async with await self.connect()]);
      a connection works on its own view of the data, [commit] publishes
      the view, and leaving the [async with] block without [commit], by
      [return] or by an exception, discards it.
    - [connect] opens with [isolation_level='IMMEDIATE']: the first INSERT,
      UPDATE or DELETE of a connection takes the write lock of the file,
      and holds it until the commit or the close.  A method awaited
      between such a statement and the commit of its caller opens a second
      connection, whose own INSERT, UPDATE or DELETE cannot take the lock
      and raises [OperationalError] (database is locked) once the busy
      time-out has run out.  The methods that are awaited that way take
      the state of the lock as an argument.  One task runs at a time:
      contention between tasks is outside the model.  Foreign keys are not
      enforced (SQLite's default).
    - [total_active_days] is generated from [JULIANDAY('now')], which
      SQLite refuses as non-deterministic when it has to evaluate it: a
      statement that gives [paid_until] a value other than NULL in a row
      raises [OperationalError].
    - Instants ([datetime], [CURRENT_TIMESTAMP]) are integers counting
      microseconds; every operation receives the reading [now] of the
      clock.  [total_active_days] is the exact rational value of the
      generated column, scaled by one day.
    - The modules are taken to load and [await self.connect()] to give a
      connection.  A name a function uses without its module importing it
      raises [NameError] there; notifications (logging,
      [bot.send_message]) have no effect on the store and are left out. *)

From stdpp Require Import gmap strings list fin_maps pretty.

Open Scope Z_scope.

(** ** Values *)

Definition DAY : Z := 86400000000.
Definition timedelta_days (days : Z) : Z := days * DAY.

Inductive exn : Type :=
  | IntegrityError
  | OperationalError
  | TypeError
  | ValueError
  | AttributeError
  | NameError.

Inductive result (A : Type) : Type :=
  | Ok (a : A)
  | Raise (e : exn).
Arguments Ok {A} a.
Arguments Raise {A} e.

Definition is_failure {A : Type} (r : result A) : bool :=
  match r with Ok _ => false | Raise _ => true end.

Inductive Status : Type :=
  | STATUS_ACTIVE
  | STATUS_FROZEN
  | STATUS_EXPIRED
  | STATUS_DELETED.

#[global] Instance Status_eq_dec : EqDecision Status.
Proof. solve_decision. Defined.

Inductive json : Type :=
  | JNull
  | JInt (z : Z)
  | JStr (s : string)
  | JBool (b : bool)
  | JTime (t : Z).

Definition jopt_int (o : option Z) : json :=
  match o with Some z => JInt z | None => JNull end.

Definition jopt_str (o : option string) : json :=
  match o with Some s => JStr s | None => JNull end.

(** ** Tables (the schema of [init_db]) *)

Record User : Type := {
  user_id : Z;
  telegram_id : Z;
  username : option string;
  first_name : option string;
  last_name : option string;
  referrer_id : option Z;
  source : string;
  is_sub_active : bool;
  created_at : Z;
  last_active_at : Z
}.

Record Balance : Type := {
  trial_days : Z;
  paid_until : option Z;
  bonus_days : Z;
  current_status : Status;
  status_changed_at : option Z;
  is_premium : bool;
  premium_since : option Z;
  last_billing_date : option Z
}.

Record DaysTransaction : Type := {
  tx_user_id : Z;
  transaction_type : string;
  days_change : Z;
  balance_type : string;
  new_balance : Z;
  related_user_id : option Z;
  tx_metadata : list (string * json);
  tx_created_at : Z
}.

Record ReferralEvent : Type := {
  event_id : Z;
  ev_referrer_id : Z;
  referred_id : Z;
  event_type : string;
  reward_granted : bool;
  reward_type : option string;
  ev_days_awarded : option Z;
  ev_created_at : Z;
  pending_until : option Z
}.

Record Bot : Type := {
  bot_id : Z;
  owner_id : Z;
  is_running : bool;
  last_active : option Z
}.

Record Payment : Type := {
  payment_id : Z;
  pay_user_id : Z;
  amount : Z;
  currency : string;
  payment_method : string;
  payment_status : string;
  telegram_payment_charge_id : option string;
  days_awarded : Z;
  pay_created_at : Z;
  completed_at : option Z
}.

Record AuditEntry : Type := {
  log_user_id : option Z;
  action : string;
  details : option (list (string * json));
  log_created_at : Z
}.

Record DB : Type := {
  users : list User;
  user_balances : gmap Z Balance;
  days_transactions : list DaysTransaction;
  referral_events : list ReferralEvent;
  bots : list Bot;
  payments : list Payment;
  audit_log : list AuditEntry
}.

Definition empty_db : DB :=
  {| users := []; user_balances := ∅; days_transactions := [];
     referral_events := []; bots := []; payments := []; audit_log := [] |}.

(** The column defaults of [user_balances]. *)
Definition default_balance (now : Z) : Balance :=
  {| trial_days := 10; paid_until := None; bonus_days := 0;
     current_status := STATUS_FROZEN; status_changed_at := Some now;
     is_premium := false; premium_since := None;
     last_billing_date := None |}.

(** The generated column [total_active_days], times [DAY]. *)
Definition total_active_days (b : Balance) (now : Z) : Z :=
  timedelta_days (trial_days b)
  + Z.max 0 (match paid_until b with Some p => p - now | None => 0 end)
  + timedelta_days (bonus_days b).

(** ** Field updates *)

Definition set_trial_days (v : Z) (b : Balance) : Balance :=
  {| trial_days := v; paid_until := paid_until b; bonus_days := bonus_days b;
     current_status := current_status b;
     status_changed_at := status_changed_at b; is_premium := is_premium b;
     premium_since := premium_since b;
     last_billing_date := last_billing_date b |}.

Definition set_paid_until (v : option Z) (b : Balance) : Balance :=
  {| trial_days := trial_days b; paid_until := v; bonus_days := bonus_days b;
     current_status := current_status b;
     status_changed_at := status_changed_at b; is_premium := is_premium b;
     premium_since := premium_since b;
     last_billing_date := last_billing_date b |}.

Definition set_bonus_days (v : Z) (b : Balance) : Balance :=
  {| trial_days := trial_days b; paid_until := paid_until b; bonus_days := v;
     current_status := current_status b;
     status_changed_at := status_changed_at b; is_premium := is_premium b;
     premium_since := premium_since b;
     last_billing_date := last_billing_date b |}.

Definition set_status (s : Status) (now : Z) (b : Balance) : Balance :=
  {| trial_days := trial_days b; paid_until := paid_until b;
     bonus_days := bonus_days b; current_status := s;
     status_changed_at := Some now; is_premium := is_premium b;
     premium_since := premium_since b;
     last_billing_date := last_billing_date b |}.

(** [is_premium = 1, premium_since = COALESCE(premium_since, CURRENT_TIMESTAMP)] *)
Definition set_premium_on (now : Z) (b : Balance) : Balance :=
  {| trial_days := trial_days b; paid_until := paid_until b;
     bonus_days := bonus_days b; current_status := current_status b;
     status_changed_at := status_changed_at b; is_premium := true;
     premium_since :=
       match premium_since b with Some t => Some t | None => Some now end;
     last_billing_date := last_billing_date b |}.

Definition set_premium_off (b : Balance) : Balance :=
  {| trial_days := trial_days b; paid_until := paid_until b;
     bonus_days := bonus_days b; current_status := current_status b;
     status_changed_at := status_changed_at b; is_premium := false;
     premium_since := premium_since b;
     last_billing_date := last_billing_date b |}.

Definition set_last_billing_date (now : Z) (b : Balance) : Balance :=
  {| trial_days := trial_days b; paid_until := paid_until b;
     bonus_days := bonus_days b; current_status := current_status b;
     status_changed_at := status_changed_at b; is_premium := is_premium b;
     premium_since := premium_since b; last_billing_date := Some now |}.

(** [SET current_status = ?], without the timestamp *)
Definition set_current_status (s : Status) (b : Balance) : Balance :=
  {| trial_days := trial_days b; paid_until := paid_until b;
     bonus_days := bonus_days b; current_status := s;
     status_changed_at := status_changed_at b; is_premium := is_premium b;
     premium_since := premium_since b;
     last_billing_date := last_billing_date b |}.

Definition with_users (f : list User -> list User) (d : DB) : DB :=
  {| users := f (users d); user_balances := user_balances d;
     days_transactions := days_transactions d;
     referral_events := referral_events d; bots := bots d;
     payments := payments d; audit_log := audit_log d |}.

Definition with_user_balances (f : gmap Z Balance -> gmap Z Balance) (d : DB) : DB :=
  {| users := users d; user_balances := f (user_balances d);
     days_transactions := days_transactions d;
     referral_events := referral_events d; bots := bots d;
     payments := payments d; audit_log := audit_log d |}.

Definition with_days_transactions
    (f : list DaysTransaction -> list DaysTransaction) (d : DB) : DB :=
  {| users := users d; user_balances := user_balances d;
     days_transactions := f (days_transactions d);
     referral_events := referral_events d; bots := bots d;
     payments := payments d; audit_log := audit_log d |}.

Definition with_referral_events
    (f : list ReferralEvent -> list ReferralEvent) (d : DB) : DB :=
  {| users := users d; user_balances := user_balances d;
     days_transactions := days_transactions d;
     referral_events := f (referral_events d); bots := bots d;
     payments := payments d; audit_log := audit_log d |}.

Definition with_bots (f : list Bot -> list Bot) (d : DB) : DB :=
  {| users := users d; user_balances := user_balances d;
     days_transactions := days_transactions d;
     referral_events := referral_events d; bots := f (bots d);
     payments := payments d; audit_log := audit_log d |}.

Definition with_payments (f : list Payment -> list Payment) (d : DB) : DB :=
  {| users := users d; user_balances := user_balances d;
     days_transactions := days_transactions d;
     referral_events := referral_events d; bots := bots d;
     payments := f (payments d); audit_log := audit_log d |}.

Definition with_audit_log (f : list AuditEntry -> list AuditEntry) (d : DB) : DB :=
  {| users := users d; user_balances := user_balances d;
     days_transactions := days_transactions d;
     referral_events := referral_events d; bots := bots d;
     payments := payments d; audit_log := f (audit_log d) |}.

(** ** Connections *)

(** The write lock of the file, as a connection finds it. *)
Inductive Lock : Type :=
  | Free
  | Held.

Record Connection : Type := { view : DB; in_transaction : bool }.

(** [await self.connect()] *)
Definition connect (disk : DB) : Connection :=
  {| view := disk; in_transaction := false |}.

(** [await db.execute(...)] with a statement that changes tables, on a
    connection that can take the lock: the transaction begins *)
Definition execute (stmt : DB -> DB) (c : Connection) : Connection :=
  {| view := stmt (view c); in_transaction := true |}.

(** [await db.commit()] *)
Definition commit (c : Connection) (disk : DB) : DB := view c.

(** leaving [async with] without a commit *)
Definition close (c : Connection) (disk : DB) : DB := disk.

(** The lock as a connection opened while [c] is in use finds it. *)
Definition lock_of (c : Connection) : Lock :=
  if in_transaction c then Held else Free.

(** The first statement that changes tables, on a connection that finds
    the lock in state [lock]. *)
Definition begin_execute (lock : Lock) (stmt : DB -> DB) (c : Connection) :
    result Connection :=
  match lock with
  | Held => Raise OperationalError
  | Free => Ok (execute stmt c)
  end.

(** [await self.method(...)] inside the [async with] block of [db]: an
    exception leaves the block, and [db] is closed without a commit. *)
Definition awaiting {A B : Type} (db : Connection) (call : result A * DB)
    (k : DB -> result B * DB) : result B * DB :=
  match call with
  | (Ok _, disk) => k disk
  | (Raise e, disk) => (Raise e, close db disk)
  end.

(** [UPDATE user_balances SET ... WHERE user_id = ?] *)
Definition update_balance (uid : Z) (f : Balance -> Balance) : DB -> DB :=
  with_user_balances (alter f uid).

(** The rowid SQLite gives the next inserted row. *)
Definition next_rowid (ids : list Z) : Z := 1 + foldr Z.max 0 ids.

(** ** core/database.py: class Database *)

Module Database.

(** [log_audit]: the INSERT runs on a connection of its own, which
    needs the write lock for it and is closed without a commit.  [lock]
    is the state of the lock at the call. *)
Definition log_audit (uid : option Z) (act : string)
    (det : list (string * json)) (now : Z) (lock : Lock) (disk : DB) :
    result unit * DB :=
  let db := connect disk in
  let row := {| log_user_id := uid; action := act;
                details := match det with [] => None | _ => Some det end;
                log_created_at := now |} in
  match begin_execute lock (with_audit_log (fun l => l ++ [row])) db with
  | Ok db => (Ok tt, close db disk)
  | Raise e => (Raise e, close db disk)
  end.

(** [log_days_transaction]: as [log_audit], on [days_transactions]. *)
Definition log_days_transaction (uid : Z) (ttype : string) (change : Z)
    (btype : string) (newbal : Z) (related : option Z)
    (meta : list (string * json)) (now : Z) (lock : Lock) (disk : DB) :
    result unit * DB :=
  let db := connect disk in
  let row := {| tx_user_id := uid; transaction_type := ttype;
                days_change := change; balance_type := btype;
                new_balance := newbal; related_user_id := related;
                tx_metadata := meta; tx_created_at := now |} in
  match begin_execute lock (with_days_transactions (fun l => l ++ [row])) db with
  | Ok db => (Ok tt, close db disk)
  | Raise e => (Raise e, close db disk)
  end.

(** [UPDATE user_balances SET paid_until = ? WHERE user_id = ?] with a
    value other than NULL.  The transaction begins; if the statement
    finds the row, SQLite has to evaluate [total_active_days] for it and
    refuses [JULIANDAY('now')]. *)
Definition update_paid_until (uid : Z) (until : Z) (c : Connection) :
    result Connection :=
  match user_balances (view c) !! uid with
  | Some _ => Raise OperationalError
  | None => Ok (execute (update_balance uid (set_paid_until (Some until))) c)
  end.

Definition coalesce {A : Type} (new old : option A) : option A :=
  match new with Some x => Some x | None => old end.

Definition create_or_update_user (telegram : Z)
    (uname fname lname : option string) (referrer : option Z)
    (src : string) (now : Z) (disk : DB) : result Z * DB :=
  let db := connect disk in
  match find (fun u => telegram_id u =? telegram) (users (view db)) with
  | Some row =>
      let uid := user_id row in
      let touch u :=
        if user_id u =? uid then
          {| user_id := user_id u; telegram_id := telegram_id u;
             username := coalesce uname (username u);
             first_name := coalesce fname (first_name u);
             last_name := coalesce lname (last_name u);
             referrer_id := referrer_id u; source := source u;
             is_sub_active := is_sub_active u;
             created_at := created_at u; last_active_at := now |}
        else u in
      let db := execute (with_users (map touch)) db in
      (Ok uid, commit db disk)
  | None =>
      let uid := next_rowid (map user_id (users (view db))) in
      let row :=
        {| user_id := uid; telegram_id := telegram; username := uname;
           first_name := fname; last_name := lname;
           referrer_id := referrer; source := src;
           is_sub_active := false; created_at := now;
           last_active_at := now |} in
      let db := execute (with_users (fun l => l ++ [row])) db in
      match user_balances (view db) !! uid with
      | Some _ => (Raise IntegrityError, close db disk)
      | None =>
          let db :=
            execute (with_user_balances (insert uid (default_balance now))) db in
          awaiting db
            (log_audit (Some uid) "USER_REGISTERED"
               [("telegram_id", JInt telegram);
                ("referrer_id", jopt_int referrer);
                ("source", JStr src)] now (lock_of db) disk)
            (fun disk => (Ok uid, commit db disk))
      end
  end.

(** The row of [users LEFT JOIN user_balances] that [get_user] returns. *)
Record UserRow : Type := {
  u_user : User;
  u_balance : option Balance;
  u_total_active_days : option Z
}.

Definition get_user (uid : Z) (now : Z) (disk : DB) : option UserRow :=
  let db := connect disk in
  match find (fun u => user_id u =? uid) (users (view db)) with
  | Some u =>
      let ob := user_balances (view db) !! uid in
      Some {| u_user := u; u_balance := ob;
              u_total_active_days :=
                match ob with
                | Some b => Some (total_active_days b now)
                | None => None
                end |}
  | None => None
  end.

Definition update_subscription_status (uid : Z) (is_active : bool)
    (now : Z) (disk : DB) : result unit * DB :=
  let db := connect disk in
  let upd u :=
    if user_id u =? uid then
      {| user_id := user_id u; telegram_id := telegram_id u;
         username := username u; first_name := first_name u;
         last_name := last_name u; referrer_id := referrer_id u;
         source := source u; is_sub_active := is_active;
         created_at := created_at u; last_active_at := last_active_at u |}
    else u in
  let db := execute (with_users (map upd)) db in
  let disk := commit db disk in
  (* the transaction is over *)
  log_audit (Some uid) "SUBSCRIPTION_CHANGED"
    [("is_active", JBool is_active)] now Free disk.

Definition add_trial_days (uid : Z) (days : Z) (reason : string)
    (now : Z) (disk : DB) : result unit * DB :=
  let db := connect disk in
  let current :=
    match user_balances (view db) !! uid with
    | Some row => trial_days row
    | None => 0
    end in
  let new_balance := current + days in
  let db := execute (update_balance uid (set_trial_days new_balance)) db in
  awaiting db
    (log_days_transaction uid "TRIAL_ADD" days "trial" new_balance None
       [("reason", JStr reason)] now (lock_of db) disk)
    (fun disk => (Ok tt, commit db disk)).

(** [now1] and [now2] are the two readings of [datetime.utcnow()]. *)
Definition add_paid_days (uid : Z) (days : Z) (pid : option Z)
    (now1 now2 : Z) (disk : DB) : result unit * DB :=
  let db := connect disk in
  let current_until :=
    match user_balances (view db) !! uid with
    | Some row =>
        match paid_until row with Some p => p | None => now1 end
    | None => now1
    end in
  let new_until := Z.max now2 current_until + timedelta_days days in
  match update_paid_until uid new_until db with
  | Raise e => (Raise e, close db disk)
  | Ok db =>
      awaiting db
        (log_days_transaction uid "PAID_ADD" days "paid" days None
           [("paid_until", JTime new_until); ("payment_id", jopt_int pid)]
           now2 (lock_of db) disk)
        (fun disk => (Ok tt, commit db disk))
  end.

Definition add_bonus_days (uid : Z) (days : Z) (reason : string)
    (now : Z) (disk : DB) : result unit * DB :=
  let db := connect disk in
  let current :=
    match user_balances (view db) !! uid with
    | Some row => bonus_days row
    | None => 0
    end in
  let new_balance := current + days in
  let db :=
    if 30 <=? new_balance then
      execute
        (update_balance uid
           (fun b => set_premium_on now (set_bonus_days new_balance b))) db
    else
      execute (update_balance uid (set_bonus_days new_balance)) db in
  awaiting db
    (log_days_transaction uid "BONUS_ADD" days "bonus" new_balance None
       [("reason", JStr reason)] now (lock_of db) disk)
    (fun disk => (Ok tt, commit db disk)).

Definition consume_day (uid : Z) (now : Z) (disk : DB) : result bool * DB :=
  let db := connect disk in
  match user_balances (view db) !! uid with
  | None => (Ok false, close db disk)
  | Some row =>
      let finish (db : Connection) (disk : DB) :=
        let db := execute (update_balance uid (set_last_billing_date now)) db in
        (Ok true, commit db disk) in
      if 0 <? trial_days row then
        let new_trial := trial_days row - 1 in
        let db := execute (update_balance uid (set_trial_days new_trial)) db in
        awaiting db
          (log_days_transaction uid "DAILY_CONSUMPTION" (-1) "trial"
             new_trial None [("source", JStr "trial")] now (lock_of db) disk)
          (finish db)
      else
        let bonus_or_expire (db : Connection) (disk : DB) :=
          if 0 <? bonus_days row then
            let new_bonus := bonus_days row - 1 in
            let db :=
              execute (update_balance uid (set_bonus_days new_bonus)) db in
            awaiting db
              (log_days_transaction uid "DAILY_CONSUMPTION" (-1) "bonus"
                 new_bonus None [("source", JStr "bonus")] now (lock_of db)
                 disk)
              (finish db)
          else
            let db :=
              execute (update_balance uid (set_status STATUS_EXPIRED now)) db in
            awaiting db
              (log_audit (Some uid) "DAYS_EXPIRED" [("timestamp", JTime now)]
                 now (lock_of db) disk)
              (fun disk => (Ok false, close db disk)) in
        match paid_until row with
        | Some p =>
            if now <? p then
              let new_paid_until := p - timedelta_days 1 in
              match update_paid_until uid new_paid_until db with
              | Raise e => (Raise e, close db disk)
              | Ok db =>
                  let remaining_days :=
                    Z.max 0 ((new_paid_until - now) `div` DAY) in
                  awaiting db
                    (log_days_transaction uid "DAILY_CONSUMPTION" (-1) "paid"
                       remaining_days None [("source", JStr "paid")] now
                       (lock_of db) disk)
                    (finish db)
              end
            else bonus_or_expire db disk
        | None => bonus_or_expire db disk
        end
  end.

Definition get_user_bots (uid : Z) (disk : DB) : list Bot :=
  let db := connect disk in
  filter (fun b => owner_id b = uid) (bots (view db)).

Definition set_bot_running (bid : Z) (running : bool) (now : Z)
    (disk : DB) : result unit * DB :=
  let db := connect disk in
  let upd b :=
    if bot_id b =? bid then
      {| bot_id := bot_id b; owner_id := owner_id b;
         is_running := running; last_active := Some now |}
    else b in
  let db := execute (with_bots (map upd)) db in
  (Ok tt, commit db disk).

(** [referred_id] is declared UNIQUE: the INSERT raises
    [IntegrityError] when a row with that value exists. *)
Definition create_referral_event (referrer referred : Z) (etype : string)
    (pending_days : Z) (now : Z) (disk : DB) : result bool * DB :=
  let db := connect disk in
  let pending := now + timedelta_days pending_days in
  if existsb (fun e => referred_id e =? referred) (referral_events (view db))
  then (Ok false, close db disk)
  else
    let row :=
      {| event_id := next_rowid (map event_id (referral_events (view db)));
         ev_referrer_id := referrer; referred_id := referred;
         event_type := etype; reward_granted := false;
         reward_type := None; ev_days_awarded := None;
         ev_created_at := now; pending_until := Some pending |} in
    let db := execute (with_referral_events (fun l => l ++ [row])) db in
    (Ok true, commit db disk).

Definition mark_rewarded (rtype : string) (days : Z) (e : ReferralEvent) :
    ReferralEvent :=
  {| event_id := event_id e; ev_referrer_id := ev_referrer_id e;
     referred_id := referred_id e; event_type := event_type e;
     reward_granted := true; reward_type := Some rtype;
     ev_days_awarded := Some days; ev_created_at := ev_created_at e;
     pending_until := None |}.

Definition mark_referral_rewarded (eid : Z) (rtype : string) (days : Z)
    (disk : DB) : result unit * DB :=
  let db := connect disk in
  let upd e := if event_id e =? eid then mark_rewarded rtype days e else e in
  let db := execute (with_referral_events (map upd)) db in
  (Ok tt, commit db disk).

Definition truthy_str (o : option string) : bool :=
  match o with
  | Some s => negb (String.eqb s "")
  | None => false
  end.

(** [telegram_payment_charge_id] is declared UNIQUE: the UPDATE raises
    [IntegrityError] when it would give row [pid] a value that another
    row holds. *)
Definition charge_id_taken (pid : Z) (charge : option string)
    (rows : list Payment) : bool :=
  truthy_str charge
  && existsb (fun p => payment_id p =? pid) rows
  && existsb (fun p => negb (payment_id p =? pid)
                       && bool_decide (telegram_payment_charge_id p = charge))
             rows.

Definition set_payment_status (status : string) (charge : option string)
    (now : Z) (p : Payment) : Payment :=
  {| payment_id := payment_id p; pay_user_id := pay_user_id p;
     amount := amount p; currency := currency p;
     payment_method := payment_method p; payment_status := status;
     telegram_payment_charge_id :=
       if truthy_str charge then charge else telegram_payment_charge_id p;
     days_awarded := days_awarded p;
     pay_created_at := pay_created_at p; completed_at := Some now |}.

Definition update_payment_status (pid : Z) (status : string)
    (charge : option string) (now : Z) (disk : DB) : result unit * DB :=
  let db := connect disk in
  let upd p :=
    if payment_id p =? pid then set_payment_status status charge now p
    else p in
  if charge_id_taken pid charge (payments (view db)) then
    (Raise IntegrityError, close db disk)
  else
    let db := execute (with_payments (map upd)) db in
    awaiting db
      (log_audit None "PAYMENT_UPDATED"
         [("payment_id", JInt pid); ("new_status", JStr status);
          ("charge_id", jopt_str charge)] now (lock_of db) disk)
      (fun disk => (Ok tt, commit db disk)).

(** SQLite renders [CURRENT_TIMESTAMP] and [datetime('now', ...)] as
    [YYYY-MM-DD HH:MM:SS], to the second; instants count from a midnight,
    so that the calendar date of [t] is [t / DAY]. *)
Definition SECOND : Z := 1000000.
Definition sql_datetime (t : Z) : Z := t / SECOND * SECOND.
Definition date (t : Z) : Z := t / DAY.

(** The events [get_pending_referrals] selects.  [pending_until] holds
    the text of [isoformat()], [YYYY-MM-DDTHH:MM:SS.ffffff], and is
    compared as text with [datetime('now')]: the dates decide, and on
    equal dates the [T] is above the space, so that the row is selected
    from the date after the one of [pending_until]. *)
Definition is_due (now : Z) (e : ReferralEvent) : bool :=
  match pending_until e with
  | Some p => (date p <? date now) && negb (reward_granted e)
  | None => false
  end.

Definition get_pending_referrals (now : Z) (disk : DB) : list ReferralEvent :=
  let db := connect disk in
  List.filter (is_due now) (referral_events (view db)).

(** [create_payment]; the [metadata] column, which no statement reads,
    is not part of [Payment]. *)
Definition create_payment (uid : Z) (price : Z) (cur method : string)
    (days : Z) (now : Z) (disk : DB) : result Z * DB :=
  let db := connect disk in
  let pid := next_rowid (map payment_id (payments (view db))) in
  let row :=
    {| payment_id := pid; pay_user_id := uid; amount := price;
       currency := cur; payment_method := method;
       payment_status := "pending"; telegram_payment_charge_id := None;
       days_awarded := days; pay_created_at := now; completed_at := None |} in
  let db := execute (with_payments (fun l => l ++ [row])) db in
  awaiting db
    (log_audit (Some uid) "PAYMENT_CREATED"
       [("payment_id", JInt pid); ("amount", JInt price);
        ("method", JStr method)] now (lock_of db) disk)
    (fun disk => (Ok pid, commit db disk)).

(** [delete_bots_by_owner]: the DELETE runs on a connection of its own,
    which needs the write lock for it and is closed without a commit. *)
Definition delete_bots_by_owner (owner : Z) (lock : Lock) (disk : DB) :
    result unit * DB :=
  let db := connect disk in
  match
    begin_execute lock
      (with_bots (List.filter (fun b => negb (owner_id b =? owner)))) db
  with
  | Ok db => (Ok tt, close db disk)
  | Raise e => (Raise e, close db disk)
  end.

(** The rows [cleanup_expired_users] selects: expired for [days_to_keep]
    days or longer, both instants read to the second. *)
Definition expired_since (days_to_keep : Z) (now : Z) (d : DB) (u : User) :
    bool :=
  match user_balances d !! user_id u with
  | Some b =>
      bool_decide (current_status b = STATUS_EXPIRED)
      && match status_changed_at b with
         | Some t =>
             sql_datetime t <=? sql_datetime (now - timedelta_days days_to_keep)
         | None => false
         end
  | None => false
  end.

(** The loop of [cleanup_expired_users], on the connection [db] of the
    method. *)
Fixpoint delete_users (days_to_keep : Z) (now : Z) (uids : list Z)
    (db : Connection) (disk : DB) : result Connection * DB :=
  match uids with
  | [] => (Ok db, disk)
  | uid :: rest =>
      awaiting db (delete_bots_by_owner uid (lock_of db) disk)
        (fun disk =>
           let db :=
             execute (update_balance uid (set_current_status STATUS_DELETED))
               db in
           awaiting db
             (log_audit (Some uid) "USER_DELETED_AUTO"
                [("reason",
                  JStr ("expired_for_" +:+ pretty days_to_keep +:+ "_days"))]
                now (lock_of db) disk)
             (delete_users days_to_keep now rest db))
  end.

Definition cleanup_expired_users (days_to_keep : Z) (now : Z) (disk : DB) :
    result nat * DB :=
  let db := connect disk in
  let users_to_delete :=
    map user_id
      (List.filter (expired_since days_to_keep now (view db)) (users (view db))) in
  match delete_users days_to_keep now users_to_delete db disk with
  | (Ok db, disk) => (Ok (length users_to_delete), commit db disk)
  | (Raise e, disk) => (Raise e, disk)
  end.

End Database.

(** ** config.py *)

Module Config.
Definition REFERRAL_bot_created_days : Z := 7.
Definition REFERRAL_bot_created_delay_days : Z := 3.
Definition MAX_REFERRALS_PER_DAY : Z := 10.
Definition ABUSE_CHECK_HOURS : Z := 24.

(** An entry of [TARIFFS]; the display name is left out. *)
Record Tariff : Type := { tariff_days : Z; tariff_price : Z }.

Definition TARIFFS (key : string) : option Tariff :=
  if String.eqb key "demo" then Some {| tariff_days := 10; tariff_price := 0 |}
  else if String.eqb key "monthly" then
    Some {| tariff_days := 30; tariff_price := 199 |}
  else if String.eqb key "quarterly" then
    Some {| tariff_days := 90; tariff_price := 490 |}
  else if String.eqb key "yearly" then
    Some {| tariff_days := 365; tariff_price := 1490 |}
  else None.
End Config.

(** ** The process state and its monad

    Besides the data base file, the process holds the status cache of
    the [LifecycleEngine] singleton.  A computation returns a value or
    raises, and hands on the state it reached in either case. *)

Record World : Type := {
  disk : DB;
  status_cache : gmap (Z * option bool) (Status * Z)
}.

Definition M (A : Type) : Type := World -> result A * World.

Definition ret {A : Type} (a : A) : M A := fun w => (Ok a, w).

Definition raise {A : Type} (e : exn) : M A := fun w => (Raise e, w).

Definition bind {A B : Type} (m : M A) (k : A -> M B) : M B :=
  fun w =>
    match m w with
    | (Ok a, w') => k a w'
    | (Raise e, w') => (Raise e, w')
    end.

(** [try: m except Exception as e: h e] *)
Definition try_except {A : Type} (m : M A) (h : exn -> M A) : M A :=
  fun w =>
    match m w with
    | (Ok a, w') => (Ok a, w')
    | (Raise e, w') => h e w'
    end.

Notation "'let*' x ':=' m 'in' k" := (bind m (fun x => k))
  (at level 10, x name, m at level 100, k at level 200).
Notation "m ';;;' k" := (bind m (fun _ => k))
  (at level 100, k at level 200, right associativity).

Definition with_disk (d : DB) (w : World) : World :=
  {| disk := d; status_cache := status_cache w |}.

(** A [Database] method called from the process. *)
Definition on_disk {A : Type} (op : DB -> result A * DB) : M A :=
  fun w => let '(r, d) := op (disk w) in (r, with_disk d w).

(** A logging method called from the process, where no connection is
    open and the lock is free. *)
Definition log_on_disk (op : Lock -> DB -> result unit * DB) : M unit :=
  on_disk (op Free).

Definition read_disk {A : Type} (q : DB -> A) : M A :=
  fun w => (Ok (q (disk w)), w).

Definition read_world {A : Type} (q : World -> A) : M A :=
  fun w => (Ok (q w), w).

Definition when (b : bool) (m : M unit) : M unit :=
  if b then m else ret tt.

Fixpoint for_each {A : Type} (l : list A) (body : A -> M unit) : M unit :=
  match l with
  | [] => ret tt
  | x :: l' => body x ;;; for_each l' body
  end.

Definition exn_str (e : exn) : string :=
  match e with
  | IntegrityError => "IntegrityError"
  | OperationalError => "OperationalError"
  | TypeError => "TypeError"
  | ValueError => "ValueError"
  | AttributeError => "AttributeError"
  | NameError => "NameError"
  end.

(** ** core/lifecycle.py: class LifecycleEngine *)

Module Lifecycle.

Definition status_str (s : Status) : string :=
  match s with
  | STATUS_ACTIVE => "active"
  | STATUS_FROZEN => "frozen"
  | STATUS_EXPIRED => "expired"
  | STATUS_DELETED => "deleted"
  end.

Definition _update_user_premium_status (uid : Z) (premium : bool)
    (now : Z) (d : DB) : result unit * DB :=
  let db_conn := connect d in
  let db_conn :=
    if premium then execute (update_balance uid (set_premium_on now)) db_conn
    else execute (update_balance uid set_premium_off) db_conn in
  (Ok tt, commit db_conn d).

Definition _update_user_status (uid : Z) (status : Status) (now : Z)
    (d : DB) : result unit * DB :=
  let db_conn := connect d in
  let db_conn := execute (update_balance uid (set_status status now)) db_conn in
  (Ok tt, commit db_conn d).

Definition _set_user_expired (uid : Z) (now : Z) (d : DB) : result unit * DB :=
  let db_conn := connect d in
  let db_conn :=
    execute (update_balance uid (set_status STATUS_EXPIRED now)) db_conn in
  (Ok tt, commit db_conn d).

Definition _handle_status_change (uid : Z) (old_status : option Status)
    (new_status : Status) (now : Z) : M unit :=
  if bool_decide (old_status = Some STATUS_FROZEN /\ new_status = STATUS_ACTIVE)
     || bool_decide (old_status = Some STATUS_ACTIVE /\ new_status = STATUS_FROZEN)
  then
    let* bots := read_disk (Database.get_user_bots uid) in
    let running := bool_decide (new_status = STATUS_ACTIVE) in
    for_each bots
      (fun bot => on_disk (Database.set_bot_running (bot_id bot) running now)) ;;;
    log_on_disk
      (Database.log_audit (Some uid)
         (if running then "BOTS_RESUMED" else "BOTS_PAUSED")
         [("count", JInt (Z.of_nat (length bots)))] now)
  else ret tt.

(** The cache entry of [cache_key], when younger than 300 seconds. *)
Definition cached_status (key : Z * option bool) (now : Z) (w : World) :
    option Status :=
  match status_cache w !! key with
  | Some (cached, cached_time) =>
      if now - cached_time <? 300 * 1000000 then Some cached else None
  | None => None
  end.

Definition cache_store (key : Z * option bool) (status : Status) (now : Z) :
    M unit :=
  fun w =>
    (Ok tt, {| disk := disk w;
               status_cache := <[key := (status, now)]> (status_cache w) |}).

Definition get_user_status (uid : Z) (is_subscribed : option bool)
    (now : Z) : M Status :=
  let cache_key := (uid, is_subscribed) in
  let* hit := read_world (cached_status cache_key now) in
  match hit with
  | Some cached => ret cached
  | None =>
      let* found := read_disk (Database.get_user uid now) in
      match found with
      | None => ret STATUS_DELETED
      | Some user =>
          let stored := is_sub_active (Database.u_user user) in
          let* subscribed :=
            match is_subscribed with
            | None => ret stored
            | Some s =>
                when (negb (eqb s stored))
                  (on_disk (Database.update_subscription_status uid s now)) ;;;
                ret s
            end in
          let* status :=
            if negb subscribed then ret STATUS_FROZEN
            else
              match Database.u_total_active_days user,
                    Database.u_balance user with
              | Some total_days, Some row =>
                  if 0 <? total_days then
                    let premium := 30 <=? bonus_days row in
                    when (negb (eqb premium (is_premium row)))
                      (on_disk (_update_user_premium_status uid premium now)) ;;;
                    ret STATUS_ACTIVE
                  else
                    when (negb (bool_decide
                                  (current_status row = STATUS_EXPIRED)))
                      (on_disk (_set_user_expired uid now)) ;;;
                    ret STATUS_EXPIRED
              | _, _ => raise TypeError
              end in
          let current := current_status <$> Database.u_balance user in
          when (negb (bool_decide (Some status = current)))
            (on_disk (_update_user_status uid status now) ;;;
             log_on_disk
               (Database.log_audit (Some uid) "STATUS_CHANGED"
                  [("from", jopt_str (status_str <$> current));
                   ("to", JStr (status_str status));
                   ("reason", JStr "automatic_check")] now) ;;;
             _handle_status_change uid current status now) ;;;
          cache_store cache_key status now ;;;
          ret status
      end
  end.

Definition add_days_to_user (uid : Z) (days : Z) (days_type : string)
    (reason : string) (pid : option Z) (now : Z) : M bool :=
  try_except
    ((if String.eqb days_type "trial" then
        on_disk (Database.add_trial_days uid days reason now)
      else if String.eqb days_type "paid" then
        on_disk (Database.add_paid_days uid days pid now now)
      else if String.eqb days_type "bonus" then
        on_disk (Database.add_bonus_days uid days reason now)
      else raise ValueError) ;;;
     get_user_status uid None now ;;;
     ret true)
    (fun e =>
       log_on_disk
         (Database.log_audit (Some uid) "ADD_DAYS_ERROR"
            [("days", JInt days); ("type", JStr days_type);
             ("reason", JStr reason); ("error", JStr (exn_str e))] now) ;;;
       ret false).




Definition can_bot_respond (bid : Z) (now : Z) : M bool :=
  try_except
    (let* row :=
       read_disk (fun d => find (fun b => bot_id b =? bid)
                             (bots (view (connect d)))) in
     match row with
     | None => ret false
     | Some bot =>
         let* status := get_user_status (owner_id bot) None now in
         ret (bool_decide (status = STATUS_ACTIVE))
     end)
    (fun _ => ret false).

End Lifecycle.

(** ** features/payments.py: class PaymentProcessor *)

Module Payments.

(** A provider callback: the fields of [callback_data] the handler
    reads, with [order_id] as the integer [int(...)] makes of it, and
    the remaining fields. *)
Record Callback : Type := {
  cb_order_id : Z;
  cb_status : string;
  cb_transaction_id : option string;
  cb_other : list (string * string);
  cb_sign : string
}.

(** The outcomes [process_tbank_callback] reports, in the order of the
    source: bad signature, payment not found, processed, days not
    credited, cancelled, unknown status, exception caught. *)
Inductive Message : Type :=
  | MsgBadSignature
  | MsgPaymentNotFound
  | MsgProcessed
  | MsgCreditFailed
  | MsgCancelled
  | MsgUnknownStatus (status : string)
  | MsgError (e : exn).

Definition lower_ascii (c : Ascii.ascii) : Ascii.ascii :=
  let n := Ascii.nat_of_ascii c in
  if (65 <=? n)%nat && (n <=? 90)%nat then Ascii.ascii_of_nat (n + 32) else c.

(** [str.lower()], on ASCII letters *)
Fixpoint lower (s : string) : string :=
  match s with
  | EmptyString => EmptyString
  | String c s' => String (lower_ascii c) (lower s')
  end.

Definition _process_referral_payment (uid : Z) (now : Z) : M unit :=
  try_except
    (let* found := read_disk (Database.get_user uid now) in
     match found with
     | None => ret tt
     | Some user =>
         match referrer_id (Database.u_user user) with
         | None => ret tt
         | Some referrer =>
             if referrer =? 0 then ret tt
             else
               Lifecycle.add_days_to_user referrer 15 "bonus"
                 "referral_first_payment" None now ;;;
               Lifecycle.add_days_to_user uid 10 "bonus"
                 "welcome_first_payment" None now ;;;
               (* [db.mark_referral_payment_event]: class [Database] has
                  no such method *)
               raise AttributeError
         end
     end)
    (fun _ => ret tt).

Section Callback.

(** [_generate_tbank_signature]: the keyed hash of the fields other
    than [sign]. *)
Variable _generate_tbank_signature :
  Z -> string -> option string -> list (string * string) -> string.

Definition _validate_tbank_signature (data : Callback) : bool :=
  String.eqb (cb_sign data)
    (_generate_tbank_signature (cb_order_id data) (cb_status data)
       (cb_transaction_id data) (cb_other data)).

Definition process_tbank_callback (callback_data : Callback) (now : Z) :
    M (bool * Message) :=
  try_except
    (if negb (_validate_tbank_signature callback_data) then
       ret (false, MsgBadSignature)
     else
       let pid := cb_order_id callback_data in
       let status := lower (cb_status callback_data) in
       if String.eqb status "success" then
         (* [conn.row_factory = aiosqlite.Row]: the module does not import
            [aiosqlite] *)
         (raise NameError : M unit) ;;;
         let* payment :=
           read_disk (fun d => find (fun p => payment_id p =? pid)
                                 (payments (view (connect d)))) in
         match payment with
         | None => ret (false, MsgPaymentNotFound)
         | Some payment =>
             on_disk (Database.update_payment_status pid "success"
                        (cb_transaction_id callback_data) now) ;;;
             let uid := pay_user_id payment in
             let days := days_awarded payment in
             let* success :=
               Lifecycle.add_days_to_user uid days "paid" "" (Some pid) now in
             if success then
               _process_referral_payment uid now ;;;
               ret (true, MsgProcessed)
             else ret (false, MsgCreditFailed)
         end
       else if String.eqb status "failed" || String.eqb status "canceled" then
         on_disk (Database.update_payment_status pid "failed" None now) ;;;
         ret (false, MsgCancelled)
       else ret (false, MsgUnknownStatus status))
    (fun e => ret (false, MsgError e)).

End Callback.

Section Invoice.

(** The outcome of [create_invoice]: nothing, the free grant with its
    report of success and its days, or the invoice a builder made. *)
Context {Invoice : Type}.

Inductive InvoiceResult : Type :=
  | NoInvoice
  | FreeDays (success : bool) (days : Z)
  | Built (invoice : Invoice).

(** [_create_tbank_invoice] and [_create_stars_invoice], which format the
    provider's payload. *)
Variable _create_tbank_invoice : Z -> Config.Tariff -> Z -> M (option Invoice).
Variable _create_stars_invoice : Z -> Config.Tariff -> Z -> M Invoice.

Definition create_invoice (uid : Z) (tariff_key : string)
    (method : string) (now : Z) : M InvoiceResult :=
  match Config.TARIFFS tariff_key with
  | None => ret NoInvoice
  | Some tariff =>
      if String.eqb tariff_key "demo" then
        let* success :=
          Lifecycle.add_days_to_user uid (Config.tariff_days tariff) "trial"
            "demo_tariff" None now in
        ret (FreeDays success (Config.tariff_days tariff))
      else
        let* pid :=
          on_disk (Database.create_payment uid (Config.tariff_price tariff)
                     "RUB" method (Config.tariff_days tariff) now) in
        if String.eqb method "tbank" then
          let* built := _create_tbank_invoice uid tariff pid in
          ret (match built with Some i => Built i | None => NoInvoice end)
        else if String.eqb method "stars" then
          let* built := _create_stars_invoice uid tariff pid in
          ret (Built built)
        else ret NoInvoice
  end.

End Invoice.

End Payments.

(** ** features/referral.py: class ReferralSystem *)

Module Referral.




Definition _is_abuse_detected (uid : Z) (now : Z) : M bool :=
  try_except
    (let* recent_referrals :=
       read_disk (fun d =>
                    Z.of_nat
                      (length
                         (List.filter
                            (fun e =>
                               (ev_referrer_id e =? uid)
                               && (Database.sql_datetime
                                     (now - Config.ABUSE_CHECK_HOURS * 3600000000)
                                   <=? Database.sql_datetime (ev_created_at e)))
                            (referral_events (view (connect d)))))) in
     if Config.MAX_REFERRALS_PER_DAY <=? recent_referrals then
       log_on_disk
         (Database.log_audit (Some uid) "REFERRAL_ABUSE_DETECTED"
            [("recent_referrals", JInt recent_referrals);
             ("period_hours", JInt Config.ABUSE_CHECK_HOURS);
             ("limit", JInt Config.MAX_REFERRALS_PER_DAY)] now) ;;;
       ret true
     else ret false)
    (fun _ => ret false).

Definition handle_new_user (new_user : Z) (referrer : option Z) (now : Z) :
    M unit :=
  match referrer with
  | None => ret tt
  | Some referrer =>
      if referrer =? 0 then ret tt
      else
        try_except
          (let* abuse := _is_abuse_detected referrer now in
           if abuse then ret tt
           else
             on_disk (Database.create_referral_event referrer new_user
                        "bot_created" Config.REFERRAL_bot_created_delay_days now) ;;;
             ret tt)
          (fun _ => ret tt)
  end.

(** One turn of the loop of [process_pending_referrals]. *)
Definition reward_pending (referral : ReferralEvent) (now : Z) : M unit :=
  let* referred_status :=
    Lifecycle.get_user_status (referred_id referral) None now in
  if bool_decide (referred_status = STATUS_ACTIVE) then
    let* success :=
      Lifecycle.add_days_to_user (ev_referrer_id referral)
        Config.REFERRAL_bot_created_days "bonus"
        ("referral_bot_created_" +:+ pretty (referred_id referral)) None now in
    when success
      (on_disk (Database.mark_referral_rewarded (event_id referral) "bonus"
                  Config.REFERRAL_bot_created_days))
  else ret tt.

Definition process_pending_referrals (now : Z) : M unit :=
  try_except
    (let* pending_referrals := read_disk (Database.get_pending_referrals now) in
     for_each pending_referrals (fun referral => reward_pending referral now))
    (fun _ => ret tt).

End Referral.

(** ** Sample stores *)

Module Sample.

Definition balance (trial : Z) (paid : option Z) (bonus : Z) : Balance :=
  {| trial_days := trial; paid_until := paid; bonus_days := bonus;
     current_status := STATUS_ACTIVE; status_changed_at := Some 0;
     is_premium := false; premium_since := None;
     last_billing_date := None |}.

Definition user (uid : Z) (referrer : option Z) : User :=
  {| user_id := uid; telegram_id := 1000 + uid; username := None;
     first_name := None; last_name := None; referrer_id := referrer;
     source := "organic"; is_sub_active := true; created_at := 0;
     last_active_at := 0 |}.

Definition payment (pid uid : Z) (status : string)
    (charge : option string) (completed : option Z) : Payment :=
  {| payment_id := pid; pay_user_id := uid; amount := 199;
     currency := "RUB"; payment_method := "tbank";
     payment_status := status; telegram_payment_charge_id := charge;
     days_awarded := 30; pay_created_at := 0; completed_at := completed |}.

(** One account: trial 2, no paid time, bonus 5. *)
Definition ledger : DB :=
  with_user_balances (insert 1 (balance 2 None 5)) empty_db.

(** One account with nothing left in any source. *)
Definition exhausted : DB :=
  with_user_balances (insert 1 (balance 0 None 0)) empty_db.

(** One account with 25 bonus days. *)
Definition saver : DB :=
  with_user_balances (insert 1 (balance 0 None 25)) empty_db.

(** A subscribed premium account whose bonus balance fell to 29. *)
Definition lapsed_premium : DB :=
  {| users := [user 1 None];
     user_balances :=
       <[1 := {| trial_days := 0; paid_until := None; bonus_days := 29;
                 current_status := STATUS_ACTIVE;
                 status_changed_at := Some 0; is_premium := true;
                 premium_since := Some 3; last_billing_date := None |}]> ∅;
     days_transactions := []; referral_events := []; bots := [];
     payments := []; audit_log := [] |}.

(** Account 2 was referred by account 1 and has one payment, in the
    given state. *)
Definition shop (status : string) (charge : option string)
    (completed : option Z) : DB :=
  {| users := [user 1 None; user 2 (Some 1)];
     user_balances :=
       <[1 := balance 0 None 0]> (<[2 := balance 0 None 0]> ∅);
     days_transactions := []; referral_events := []; bots := [];
     payments := [payment 1 2 status charge completed];
     audit_log := [] |}.

Definition pending_shop : DB := shop "pending" None None.

Definition paid_shop : DB := shop "success" (Some "tx-1") (Some 5).

Definition world (d : DB) : World := {| disk := d; status_cache := ∅ |}.

Definition signature (_ : Z) (_ : string) (_ : option string)
    (_ : list (string * string)) : string := "5f2d".

(** The provider's success callback for payment 1. *)
Definition callback : Payments.Callback :=
  {| Payments.cb_order_id := 1; Payments.cb_status := "SUCCESS";
     Payments.cb_transaction_id := Some "tx-1"; Payments.cb_other := [];
     Payments.cb_sign := "5f2d" |}.

(** Account 1 with its row of [users]: with days, and with none. *)
Definition ledger_of_user : DB :=
  with_users (fun _ => [user 1 None]) ledger.

Definition exhausted_user : DB :=
  with_users (fun _ => [user 1 None]) exhausted.

(** Account 1 invited account 2 at instant 0; the delay of the reward
    ends on day 3.  Account 2 has the given number of trial days. *)
Definition invitation : ReferralEvent :=
  {| event_id := 1; ev_referrer_id := 1; referred_id := 2;
     event_type := "bot_created"; reward_granted := false;
     reward_type := None; ev_days_awarded := None; ev_created_at := 0;
     pending_until := Some (3 * DAY) |}.

Definition invited (trial : Z) : DB :=
  {| users := [user 1 None; user 2 (Some 1)];
     user_balances :=
       <[1 := balance 0 None 0]> (<[2 := balance trial None 0]> ∅);
     days_transactions := []; referral_events := [invitation]; bots := [];
     payments := []; audit_log := [] |}.

(** The shop, with a third account that takes no part in the payment. *)
Definition busy_shop : DB :=
  with_user_balances (insert 3 (balance 4 None 1))
    (with_users (fun l => l ++ [user 3 None]) pending_shop).

(** Account 1, active, runs bot 1; bot 2 belongs to account 5. *)
Definition studio : DB :=
  {| users := [user 1 None];
     user_balances := <[1 := balance 3 None 0]> ∅;
     days_transactions := []; referral_events := [];
     bots := [{| bot_id := 1; owner_id := 1; is_running := true;
                 last_active := None |};
              {| bot_id := 2; owner_id := 5; is_running := true;
                 last_active := None |}];
     payments := []; audit_log := [] |}.

End Sample.

(** ** Vocabulary of the properties *)

(** Every balance row belongs to a row of [users]. *)
Definition balances_owned (d : DB) : Prop :=
  forall k, is_Some (user_balances d !! k) -> k ∈ map user_id (users d).

(** The computation leaves the observation [obs] of the file as it
    found it. *)
Definition preserves {X A : Type} (obs : DB -> X) (m : M A) : Prop :=
  forall w, obs (disk (m w).2) = obs (disk w).

(** A projection of every balance row. *)
Definition balance_columns {X : Type} (g : Balance -> X) (d : DB) : gmap Z X :=
  g <$> user_balances d.

(** The three sources of days. *)
Definition days_of (b : Balance) : Z * option Z * Z :=
  (trial_days b, paid_until b, bonus_days b).

(** The premium flag and its date. *)
Definition premium_of (b : Balance) : bool * option Z :=
  (is_premium b, premium_since b).

(** A projection that does not look at the status or premium columns. *)
Definition status_blind {X : Type} (g : Balance -> X) : Prop :=
  (forall s t b, g (set_status s t b) = g b)
  /\ (forall t b, g (set_premium_on t b) = g b)
  /\ (forall b, g (set_premium_off b) = g b).

(** A bot once [set_bot_running] has updated it. *)
Definition switched (running : bool) (now : Z) (b : Bot) : Bot :=
  {| bot_id := bot_id b; owner_id := owner_id b; is_running := running;
     last_active := Some now |}.

(** The bots once those of the numbers [ids] are updated. *)
Definition switch_bots (ids : list Z) (running : bool) (now : Z)
    (bs : list Bot) : list Bot :=
  map (fun b => if bool_decide (bot_id b ∈ ids) then switched running now b
                else b) bs.

(** The bots after [_handle_status_change]: those of [uid] are updated
    when the status goes from frozen to active or back. *)
Definition bots_after_change (uid : Z) (old : option Status) (new : Status)
    (now : Z) (bs : list Bot) : list Bot :=
  if bool_decide (old = Some STATUS_FROZEN /\ new = STATUS_ACTIVE)
     || bool_decide (old = Some STATUS_ACTIVE /\ new = STATUS_FROZEN)
  then switch_bots (map bot_id (filter (fun b => owner_id b = uid) bs))
         (bool_decide (new = STATUS_ACTIVE)) now bs
  else bs.

(** The status a recompute arrives at. *)
Definition status_of (subscribed : bool) (b : Balance) (now : Z) : Status :=
  if negb subscribed then STATUS_FROZEN
  else if 0 <? total_active_days b now then STATUS_ACTIVE
  else STATUS_EXPIRED.

(** The accounts a cleanup at [now] marks deleted. *)
Definition purged (days_to_keep : Z) (now : Z) (d : DB) : list Z :=
  map user_id
    (List.filter (Database.expired_since days_to_keep now d) (users d)).

(** The referral events of [referrer] created in the 24 hours up to
    [now]. *)
Definition recent_referrals (referrer : Z) (now : Z) (d : DB) : Z :=
  Z.of_nat
    (length
       (List.filter
          (fun e =>
             (ev_referrer_id e =? referrer)
             && (Database.sql_datetime (now - Config.ABUSE_CHECK_HOURS * 3600000000)
                 <=? Database.sql_datetime (ev_created_at e)))
          (referral_events d))).

(** The event [handle_new_user] records. *)
Definition bot_created_event (referrer new_user : Z) (now : Z) (d : DB) :
    ReferralEvent :=
  {| event_id := next_rowid (map event_id (referral_events d));
     ev_referrer_id := referrer; referred_id := new_user;
     event_type := "bot_created"; reward_granted := false;
     reward_type := None; ev_days_awarded := None; ev_created_at := now;
     pending_until := Some (now + 3 * DAY) |}.

(** The invitations of [news], one after the other. *)
Definition invite_all (referrer : Z) (now : Z) (news : list Z) (w : World) :
    World :=
  foldl (fun w new_user =>
           (Referral.handle_new_user new_user (Some referrer) now w).2) w news.

(** The three sources of days of account [k]. *)
Definition days_at (k : Z) (d : DB) : option (Z * option Z * Z) :=
  days_of <$> user_balances d !! k.

(** What a later contact may not change in a row of [users]. *)
Definition identity_of (u : User) : Z * Z * option Z * string * bool * Z :=
  (user_id u, telegram_id u, referrer_id u, source u, is_sub_active u,
   created_at u).

(** The answer of [process_tbank_callback]. *)
Definition callback_reply
    (signature : Z -> string -> option string -> list (string * string) -> string)
    (cb : Payments.Callback) : bool * Payments.Message :=
  if negb (Payments._validate_tbank_signature signature cb) then
    (false, Payments.MsgBadSignature)
  else if String.eqb (Payments.lower (Payments.cb_status cb)) "success" then
    (false, Payments.MsgError NameError)
  else if String.eqb (Payments.lower (Payments.cb_status cb)) "failed"
          || String.eqb (Payments.lower (Payments.cb_status cb)) "canceled"
  then (false, Payments.MsgError OperationalError)
  else (false, Payments.MsgUnknownStatus (Payments.lower (Payments.cb_status cb))).

(** * Properties *)

(** ** The write lock *)

Lemma log_audit_free uid act det now d :
  Database.log_audit uid act det now Free d = (Ok tt, d).
Proof. reflexivity. Qed.

Lemma log_audit_held uid act det now d :
  Database.log_audit uid act det now Held d = (Raise OperationalError, d).
Proof. reflexivity. Qed.

Lemma log_days_transaction_held uid ttype change btype newbal rel meta now d :
  Database.log_days_transaction uid ttype change btype newbal rel meta now Held d
  = (Raise OperationalError, d).
Proof. reflexivity. Qed.

Lemma lock_held_after_execute stmt c : lock_of (execute stmt c) = Held.
Proof. reflexivity. Qed.

(** ** Row updates *)

Lemma update_balance_lookup uid f d :
  user_balances (update_balance uid f d) !! uid = f <$> user_balances d !! uid.
Proof. apply lookup_alter_eq. Qed.

Lemma update_balance_lookup_ne uid uid' f d :
  uid <> uid' ->
  user_balances (update_balance uid f d) !! uid' = user_balances d !! uid'.
Proof. intros Hne. by apply lookup_alter_ne. Qed.

(** ** The four balance mutations

    Each of them executes its UPDATE, which takes the write lock, and
    awaits the log before it commits. *)

Lemma add_trial_days_run uid days reason now d :
  Database.add_trial_days uid days reason now d = (Raise OperationalError, d).
Proof. reflexivity. Qed.

Lemma add_paid_days_run uid days pid now1 now2 d :
  Database.add_paid_days uid days pid now1 now2 d
  = (Raise OperationalError, d).
Proof.
  unfold Database.add_paid_days, Database.update_paid_until; simpl.
  by destruct (user_balances d !! uid).
Qed.

Lemma add_bonus_days_run uid days reason now d :
  Database.add_bonus_days uid days reason now d = (Raise OperationalError, d).
Proof.
  unfold Database.add_bonus_days; simpl. by destruct (30 <=? _).
Qed.

Lemma consume_day_run uid now d :
  Database.consume_day uid now d
  = (match user_balances d !! uid with
     | Some _ => Raise OperationalError
     | None => Ok false
     end, d).
Proof.
  unfold Database.consume_day, Database.update_paid_until; simpl.
  destruct (user_balances d !! uid) as [row|] eqn:Hrow; [|done].
  destruct (0 <? trial_days row); [done|].
  destruct (paid_until row) as [p|]; [destruct (now <? p)|];
    rewrite ?Hrow; try done; by destruct (0 <? bonus_days row).
Qed.

(** C1, the code at the failing input and at every other.  None of the
    four mutations persists anything: [add_trial_days], [add_bonus_days]
    and, for an account on file, [consume_day] execute their UPDATE and
    then await [log_days_transaction] (or [log_audit]), whose INSERT on a
    second connection cannot take the write lock; [add_paid_days] has its
    UPDATE refused by the generated column, or meets the same lock.  The
    call raises [OperationalError] before the commit, and the balances
    and [days_transactions] on file are what they were: no balance is
    updated and no transaction row is written. *)
Theorem ledger_mutations_raise_before_commit uid days reason pid now now' d :
  Database.add_trial_days uid days reason now d = (Raise OperationalError, d)
  /\ Database.add_paid_days uid days pid now now' d
     = (Raise OperationalError, d)
  /\ Database.add_bonus_days uid days reason now d
     = (Raise OperationalError, d)
  /\ Database.consume_day uid now d
     = (match user_balances d !! uid with
        | Some _ => Raise OperationalError
        | None => Ok false
        end, d).
Proof.
  split; [apply add_trial_days_run|].
  split; [apply add_paid_days_run|].
  split; [apply add_bonus_days_run|apply consume_day_run].
Qed.

(** C4, the code at the failing input.  For an account on file
    [consume_day] takes no day, whatever its three sources hold: three
    consecutive calls raise [OperationalError] three times and leave the
    file as it was, so that a balance of trial 2, no paid time and bonus 5
    is still that after them. *)
Theorem consume_day_takes_no_day uid t1 t2 t3 d b :
  user_balances d !! uid = Some b ->
  let r1 := Database.consume_day uid t1 d in
  let r2 := Database.consume_day uid t2 r1.2 in
  let r3 := Database.consume_day uid t3 r2.2 in
  r1.1 = Raise OperationalError
  /\ r2.1 = Raise OperationalError
  /\ r3.1 = Raise OperationalError
  /\ r3.2 = d.
Proof.
  intros Hb r1 r2 r3. subst r1 r2 r3.
  rewrite (consume_day_run uid t1 d), Hb; simpl.
  rewrite (consume_day_run uid t2 d), Hb; simpl.
  by rewrite (consume_day_run uid t3 d), Hb.
Qed.

Lemma consume_day_takes_no_day_witness :
  let r1 := Database.consume_day 1 10 Sample.ledger in
  let r2 := Database.consume_day 1 20 r1.2 in
  let r3 := Database.consume_day 1 30 r2.2 in
  r3.1 = Raise OperationalError
  /\ days_of <$> user_balances r3.2 !! 1 = Some (2, None, 5).
Proof.
  destruct (consume_day_takes_no_day 1 10 20 30 Sample.ledger
              (Sample.balance 2 None 5) eq_refl) as (_ & _ & Hr & Hd).
  split; [exact Hr|]. by rewrite Hd.
Defined.

(** C5, the code at the failing input.  For an account on file, with or
    without a day left, [consume_day] returns neither false nor true.  In
    the exhausted branch its UPDATE of the status takes the write lock,
    the [log_audit] it awaits raises [OperationalError], and the call
    raises with the file as it was: the status is not set to [expired]
    and no audit entry is written. *)
Theorem consume_day_raises_for_accounts_on_file uid now d b :
  user_balances d !! uid = Some b ->
  let r := Database.consume_day uid now d in
  r.1 = Raise OperationalError
  /\ user_balances r.2 !! uid = Some b
  /\ audit_log r.2 = audit_log d.
Proof.
  intros Hb r. subst r. by rewrite consume_day_run, Hb.
Qed.

Lemma consume_day_raises_for_accounts_on_file_witness :
  let r := Database.consume_day 1 10 Sample.exhausted in
  r.1 = Raise OperationalError
  /\ current_status <$> user_balances r.2 !! 1 = Some STATUS_ACTIVE
  /\ audit_log r.2 = [].
Proof.
  destruct (consume_day_raises_for_accounts_on_file 1 10 Sample.exhausted
              (Sample.balance 0 None 0) eq_refl) as (Hraise & Hrow & Hlog).
  split; [exact Hraise|]. split; [by rewrite Hrow|exact Hlog].
Defined.




(** ** Registration *)

Lemma next_rowid_above ids k : k ∈ ids -> k < next_rowid ids.
Proof.
  unfold next_rowid. induction ids as [|i ids IH]; simpl.
  - by intros ?%elem_of_nil.
  - intros [->|Hk]%elem_of_cons; [lia|]. specialize (IH Hk). lia.
Qed.

Lemma next_rowid_unowned d :
  balances_owned d ->
  user_balances d !! next_rowid (map user_id (users d)) = None.
Proof.
  intros Howned. apply eq_None_not_Some. intros Hsome.
  apply Howned, next_rowid_above in Hsome. lia.
Qed.

(** C10, the code at the failing input.  On first contact
    [create_or_update_user] creates no account: after the two INSERTs,
    which give the new balance row the schema default of 10 trial days on
    the connection's view, the [log_audit] it awaits before the commit
    raises [OperationalError] (when the new id meets a balance row
    without account, the second INSERT raises [IntegrityError] before
    that).  The call raises, no id is returned, and neither row is on
    file. *)
Theorem first_contact_creates_no_account
    telegram uname fname lname referrer src now d :
  find (fun u => telegram_id u =? telegram) (users d) = None ->
  let r := Database.create_or_update_user telegram uname fname lname
             referrer src now d in
  is_failure r.1 = true
  /\ r.2 = d
  /\ (balances_owned d -> r.1 = Raise OperationalError).
Proof.
  intros Hnew r. subst r.
  unfold Database.create_or_update_user; simpl. rewrite Hnew; simpl.
  destruct (user_balances d !! next_rowid (map user_id (users d))) eqn:Hrow;
    simpl; [|done].
  split; [done|]. split; [done|].
  intros Howned. by rewrite (next_rowid_unowned d Howned) in Hrow.
Qed.

Lemma first_contact_creates_no_account_witness :
  Database.create_or_update_user 555 None None None None "organic" 7 empty_db
  = (Raise OperationalError, empty_db).
Proof.
  destruct (first_contact_creates_no_account 555 None None None None
              "organic" 7 empty_db eq_refl) as (_ & Hfile & Hraise).
  rewrite (surjective_pairing (Database.create_or_update_user _ _ _ _ _ _ _ _)).
  rewrite Hfile, Hraise; [done|].
  intros k [b Hb]. simpl in Hb. by rewrite lookup_empty in Hb.
Defined.

(** ** Referral events *)

Lemma existsb_referred_elem_of referred evs :
  existsb (fun e => referred_id e =? referred) evs = true
  <-> referred ∈ map referred_id evs.
Proof.
  induction evs as [|e evs IH]; simpl.
  - split; [done|by intros ?%elem_of_nil].
  - rewrite orb_true_iff, elem_of_cons, IH, Z.eqb_eq.
    split; (intros [Heq|Hin]; [left; by symmetry|by right]).
Qed.

Lemma create_referral_event_leaves_an_edge referrer referred etype days now d :
  referred ∈ map referred_id
    (referral_events
       (Database.create_referral_event referrer referred etype days now d).2).
Proof.
  unfold Database.create_referral_event; simpl.
  destruct (existsb _ _) eqn:Hex; simpl.
  - by apply existsb_referred_elem_of.
  - rewrite map_app, elem_of_app; simpl. right.
    by apply list_elem_of_singleton.
Qed.

(** C8.  A [create_referral_event] call for a referred id that an
    earlier call has already used returns false and leaves the file as it
    was, whichever referrer, event type and delay it names; and the table
    never comes to hold two events with one referred id. *)
Theorem referral_event_unique_per_referred
    r1 r2 referred e1 e2 days1 days2 t1 t2 d :
  let first := Database.create_referral_event r1 referred e1 days1 t1 d in
  Database.create_referral_event r2 referred e2 days2 t2 first.2
    = (Ok false, first.2)
  /\ (NoDup (map referred_id (referral_events d)) ->
      NoDup (map referred_id (referral_events first.2))).
Proof.
  intros first. split.
  - pose proof (create_referral_event_leaves_an_edge r1 referred e1 days1 t1 d)
      as Hedge.
    apply existsb_referred_elem_of in Hedge. fold first in Hedge.
    unfold Database.create_referral_event at 1; simpl. by rewrite Hedge.
  - intros Hnodup. subst first. unfold Database.create_referral_event; simpl.
    destruct (existsb _ _) eqn:Hex; simpl; [done|].
    rewrite map_app. apply NoDup_app. split; [done|]. split.
    + intros x Hx [->|[]%elem_of_nil]%elem_of_cons. simpl in Hx.
      apply existsb_referred_elem_of in Hx. congruence.
    + apply NoDup_singleton.
Qed.

Lemma referral_event_unique_per_referred_witness :
  Database.create_referral_event 8 2 "first_payment" 0 20
    (Database.create_referral_event 1 2 "bot_created" 3 10 empty_db).2
  = (Ok false, (Database.create_referral_event 1 2 "bot_created" 3 10 empty_db).2)
  /\ NoDup (map referred_id
              (referral_events
                 (Database.create_referral_event 1 2 "bot_created" 3 10
                    empty_db).2)).
Proof.
  destruct (referral_event_unique_per_referred 1 8 2 "bot_created"
              "first_payment" 3 0 10 20 empty_db) as [Hsecond Hnodup].
  split; [exact Hsecond|]. apply Hnodup. simpl. apply NoDup_nil_2.
Defined.

(** ** Paid time *)

(** C6, the code at the failing input.  [add_paid_days] stores no value
    of [paid_until].  For an account on file the UPDATE is refused:
    [total_active_days] is generated from [JULIANDAY('now')], which
    SQLite rejects once [paid_until] is not NULL.  For an id without
    balance row the UPDATE matches nothing and the log that follows meets
    the write lock.  A grant, and a second one after it, raise
    [OperationalError] and leave the file as it was. *)
Theorem add_paid_days_stores_nothing
    uid days days' pid pid' now1 now2 now3 now4 d :
  let first := Database.add_paid_days uid days pid now1 now2 d in
  let second := Database.add_paid_days uid days' pid' now3 now4 first.2 in
  first = (Raise OperationalError, d)
  /\ second = (Raise OperationalError, d).
Proof.
  intros first second. subst first second.
  by rewrite !add_paid_days_run.
Qed.

(** ** Frames: what a computation leaves alone *)

Section Frames.

Context {X : Type} (obs : DB -> X).

Lemma preserves_ret {A : Type} (a : A) : preserves obs (ret a).
Proof. by intros w. Qed.

Lemma preserves_raise {A : Type} (e : exn) : preserves obs (@raise A e).
Proof. by intros w. Qed.

Lemma preserves_read_disk {A : Type} (q : DB -> A) : preserves obs (read_disk q).
Proof. by intros w. Qed.

Lemma preserves_read_world {A : Type} (q : World -> A) :
  preserves obs (read_world q).
Proof. by intros w. Qed.

Lemma preserves_bind {A B : Type} (m : M A) (k : A -> M B) :
  preserves obs m -> (forall a, preserves obs (k a)) -> preserves obs (bind m k).
Proof.
  intros Hm Hk w. unfold bind. specialize (Hm w).
  destruct (m w) as [[a|e] w']; simpl in *; [|done].
  by rewrite Hk.
Qed.

Lemma preserves_try_except {A : Type} (m : M A) (h : exn -> M A) :
  preserves obs m -> (forall e, preserves obs (h e)) -> preserves obs (try_except m h).
Proof.
  intros Hm Hh w. unfold try_except. specialize (Hm w).
  destruct (m w) as [[a|e] w']; simpl in *; [done|].
  by rewrite Hh.
Qed.

Lemma preserves_when (b : bool) (m : M unit) :
  preserves obs m -> preserves obs (when b m).
Proof. intros Hm. destruct b; [done|apply preserves_ret]. Qed.

Lemma preserves_for_each {A : Type} (l : list A) (body : A -> M unit) :
  (forall x, preserves obs (body x)) -> preserves obs (for_each l body).
Proof.
  intros Hbody. induction l as [|x l IH]; simpl.
  - apply preserves_ret.
  - apply preserves_bind; [apply Hbody|by intros _].
Qed.

Lemma preserves_on_disk {A : Type} (op : DB -> result A * DB) :
  (forall d, obs (op d).2 = obs d) -> preserves obs (on_disk op).
Proof.
  intros Hop w. unfold on_disk. specialize (Hop (disk w)).
  by destruct (op (disk w)).
Qed.

Lemma preserves_log_on_disk (op : Lock -> DB -> result unit * DB) :
  (forall d, obs (op Free d).2 = obs d) -> preserves obs (log_on_disk op).
Proof. intros Hop. by apply preserves_on_disk. Qed.

Lemma preserves_cache_store key status now :
  preserves obs (Lifecycle.cache_store key status now).
Proof. by intros w. Qed.

End Frames.

Create HintDb frames.

(** Splits a frame goal along the structure of the computation, down to
    the statements that touch the file; frames already proved are taken
    from the hint data base [frames]. *)
Ltac frame :=
  repeat first
    [ solve [auto 1 with frames nocore]
    | apply preserves_ret
    | apply preserves_raise
    | apply preserves_read_disk
    | apply preserves_read_world
    | apply preserves_cache_store
    | apply preserves_when
    | apply preserves_for_each; intros ?
    | apply preserves_bind; [|intros ?]
    | apply preserves_try_except; [|intros ?]
    | apply preserves_on_disk; intros ?
    | apply preserves_log_on_disk; intros ?
    | match goal with
      | |- preserves _ (match ?x with _ => _ end) => destruct x
      end ].

Lemma update_balance_columns {X : Type} (g : Balance -> X) uid f d :
  (forall b, g (f b) = g b) ->
  balance_columns g (update_balance uid f d) = balance_columns g d.
Proof.
  intros Hg. unfold balance_columns, update_balance; simpl.
  apply map_eq; intros k. rewrite !lookup_fmap, lookup_alter.
  case_decide as Hk; [subst k|done].
  destruct (user_balances d !! uid); simpl; [|done]. by rewrite Hg.
Qed.

Lemma balance_columns_lookup {X : Type} (g : Balance -> X) d d' uid :
  balance_columns g d' = balance_columns g d ->
  g <$> user_balances d' !! uid = g <$> user_balances d !! uid.
Proof.
  intros Heq. unfold balance_columns in Heq.
  by rewrite <- !lookup_fmap, Heq.
Qed.

Lemma days_of_status_blind : status_blind days_of.
Proof. by repeat split. Qed.

Lemma paid_until_status_blind : status_blind paid_until.
Proof. by repeat split. Qed.

Lemma bonus_days_status_blind : status_blind bonus_days.
Proof. by repeat split. Qed.

(** The status recompute leaves the three sources of days, the payments
    and the referral events as they are. *)
Lemma get_user_status_columns {X : Type} (g : Balance -> X)
    uid is_subscribed now :
  status_blind g ->
  preserves (balance_columns g)
    (Lifecycle.get_user_status uid is_subscribed now).
Proof.
  intros (Hstatus & Hon & Hoff).
  unfold Lifecycle.get_user_status, Lifecycle._handle_status_change.
  frame; try reflexivity;
    unfold Lifecycle._update_user_premium_status; simpl;
    try destruct (_ <=? _); by apply update_balance_columns.
Qed.

Lemma get_user_status_payments uid is_subscribed now :
  preserves payments (Lifecycle.get_user_status uid is_subscribed now).
Proof.
  unfold Lifecycle.get_user_status, Lifecycle._handle_status_change.
  frame; try reflexivity;
    unfold Lifecycle._update_user_premium_status; simpl;
    by destruct (_ <=? _).
Qed.

Lemma get_user_status_referral_events uid is_subscribed now :
  preserves referral_events (Lifecycle.get_user_status uid is_subscribed now).
Proof.
  unfold Lifecycle.get_user_status, Lifecycle._handle_status_change.
  frame; try reflexivity;
    unfold Lifecycle._update_user_premium_status; simpl;
    by destruct (_ <=? _).
Qed.

Lemma preserves_columns_lookup {X A : Type} (g : Balance -> X) (m : M A) w uid :
  preserves (balance_columns g) m ->
  g <$> user_balances (disk (m w).2) !! uid = g <$> user_balances (disk w) !! uid.
Proof. intros Hm. apply balance_columns_lookup, Hm. Qed.

(** ** Grants *)

Lemma with_disk_same w : with_disk (disk w) w = w.
Proof. by destruct w. Qed.

Lemma log_on_disk_run uid act det now w :
  log_on_disk (Database.log_audit uid act det now) w = (Ok tt, w).
Proof.
  unfold log_on_disk, on_disk. rewrite log_audit_free. by rewrite with_disk_same.
Qed.

(** The grant raises, [add_days_to_user] catches the exception, logs it
    and reports false: nothing is stored, and the status is not
    recomputed. *)
Lemma add_days_to_user_run uid days days_type reason pid now w :
  Lifecycle.add_days_to_user uid days days_type reason pid now w = (Ok false, w).
Proof.
  unfold Lifecycle.add_days_to_user, try_except.
  assert (Hgrant :
    (if String.eqb days_type "trial"
     then on_disk (Database.add_trial_days uid days reason now)
     else if String.eqb days_type "paid"
          then on_disk (Database.add_paid_days uid days pid now now)
          else if String.eqb days_type "bonus"
               then on_disk (Database.add_bonus_days uid days reason now)
               else raise ValueError) w
    = (Raise (if String.eqb days_type "trial" then OperationalError
              else if String.eqb days_type "paid" then OperationalError
              else if String.eqb days_type "bonus" then OperationalError
              else ValueError), w)).
  { destruct (String.eqb days_type "trial");
      [|destruct (String.eqb days_type "paid");
        [|destruct (String.eqb days_type "bonus")]];
      unfold on_disk;
      rewrite ?add_trial_days_run, ?add_paid_days_run, ?add_bonus_days_run;
      by rewrite ?with_disk_same. }
  unfold bind at 1. rewrite Hgrant.
  unfold bind. by rewrite log_on_disk_run.
Qed.

Lemma add_days_to_user_preserves {X : Type} (obs : DB -> X)
    uid days days_type reason pid now :
  preserves obs (Lifecycle.add_days_to_user uid days days_type reason pid now).
Proof. intros w. by rewrite add_days_to_user_run. Qed.

#[global] Hint Resolve add_days_to_user_preserves : frames.

(** ** Premium *)

(** The status recompute of a subscribed account with days left and
    fewer than 30 bonus days withdraws the premium flag and keeps the
    date. *)
Lemma get_user_status_downgrades uid now w u b :
  Lifecycle.cached_status (uid, None) now w = None ->
  find (fun u => user_id u =? uid) (users (disk w)) = Some u ->
  is_sub_active u = true ->
  user_balances (disk w) !! uid = Some b ->
  0 < total_active_days b now -> bonus_days b < 30 -> is_premium b = true ->
  premium_of
    <$> user_balances (disk (Lifecycle.get_user_status uid None now w).2) !! uid
  = Some (false, premium_since b).
Proof.
  intros Hcache Hfind Hsub Hb Htotal Hbonus Hprem.
  unfold Lifecycle.get_user_status.
  unfold bind at 1, read_world. rewrite Hcache.
  unfold bind at 1, read_disk, Database.get_user; simpl.
  rewrite Hfind, Hb; simpl. rewrite Hsub; simpl.
  unfold bind at 1, ret at 1; simpl.
  rewrite (proj2 (Z.ltb_lt _ _) Htotal), Hprem.
  rewrite (proj2 (Z.leb_gt _ _) Hbonus); simpl.
  unfold bind at 1. unfold bind at 1. unfold when at 1, on_disk at 1; simpl.
  etrans.
  { apply preserves_columns_lookup.
    unfold Lifecycle._handle_status_change.
    frame; try reflexivity. by apply update_balance_columns. }
  simpl. by rewrite lookup_alter_eq, Hb.
Qed.

(** C7, the code at the failing input.  [add_bonus_days] sets no premium
    flag.  A grant to an account on file, one that takes the bonus
    balance to 30 or beyond included, executes the UPDATE of
    [bonus_days], [is_premium] and [premium_since], awaits
    [log_days_transaction] and raises [OperationalError] at the write
    lock: the balance row on file keeps its bonus days, its flag and its
    date. *)
Theorem add_bonus_days_sets_no_premium uid days reason now d b :
  user_balances d !! uid = Some b ->
  let r := Database.add_bonus_days uid days reason now d in
  r.1 = Raise OperationalError
  /\ user_balances r.2 !! uid = Some b.
Proof.
  intros Hb r. subst r. by rewrite add_bonus_days_run.
Qed.

Lemma add_bonus_days_sets_no_premium_witness :
  let r := Database.add_bonus_days 1 10 "gift" 7 Sample.saver in
  r.1 = Raise OperationalError
  /\ premium_of <$> user_balances r.2 !! 1 = Some (false, None)
  /\ bonus_days <$> user_balances r.2 !! 1 = Some 25.
Proof.
  destruct (add_bonus_days_sets_no_premium 1 10 "gift" 7 Sample.saver
              (Sample.balance 0 None 25) eq_refl) as [Hraise Hrow].
  split; [exact Hraise|]. split; by rewrite Hrow.
Defined.

(** ** Payment callbacks *)


Lemma update_payment_status_run pid status charge now d :
  Database.update_payment_status pid status charge now d
  = (Raise (if Database.charge_id_taken pid charge (payments d)
            then IntegrityError else OperationalError), d).
Proof.
  unfold Database.update_payment_status; simpl.
  by destruct (Database.charge_id_taken _ _ _).
Qed.

(** What [process_tbank_callback] answers. *)
Lemma process_tbank_callback_run signature cb now w :
  Payments.process_tbank_callback signature cb now w
  = (Ok (callback_reply signature cb), w).
Proof.
  unfold Payments.process_tbank_callback, callback_reply, try_except.
  destruct (negb _); [done|].
  destruct (String.eqb _ "success"); [done|].
  destruct (_ || _); [|done].
  unfold bind, on_disk. rewrite update_payment_status_run. simpl.
  by rewrite with_disk_same.
Qed.



(** ** First-payment rewards *)



(** ** The status machine *)

Lemma switch_bots_nil running now bs : switch_bots [] running now bs = bs.
Proof.
  unfold switch_bots. transitivity (map id bs); [|apply map_id].
  apply map_ext. intros b.
  by rewrite bool_decide_eq_false_2 by apply not_elem_of_nil.
Qed.

Lemma switch_bots_cons bid ids running now bs :
  switch_bots ids running now
    (map (fun b => if bot_id b =? bid then switched running now b else b) bs)
  = switch_bots (bid :: ids) running now bs.
Proof.
  unfold switch_bots. rewrite map_map. apply map_ext. intros b.
  destruct (bot_id b =? bid) eqn:Hb.
  - apply Z.eqb_eq in Hb.
    rewrite (bool_decide_eq_true_2 (bot_id b ∈ bid :: ids))
      by (apply elem_of_cons; by left).
    by case_bool_decide.
  - apply Z.eqb_neq in Hb.
    case_bool_decide as Hin.
    + by rewrite bool_decide_eq_true_2 by (apply elem_of_cons; by right).
    + rewrite bool_decide_eq_false_2; [done|].
      intros [?|?]%elem_of_cons; done.
Qed.

Lemma pause_or_resume_run (l : list Bot) running now w :
  exists d',
    for_each l
      (fun bot => on_disk (Database.set_bot_running (bot_id bot) running now)) w
    = (Ok tt, with_disk d' w)
    /\ users d' = users (disk w)
    /\ user_balances d' = user_balances (disk w)
    /\ bots d' = switch_bots (map bot_id l) running now (bots (disk w)).
Proof.
  revert w. induction l as [|bot l IH]; intros w; simpl.
  - exists (disk w). rewrite with_disk_same. by rewrite switch_bots_nil.
  - unfold bind at 1, on_disk at 1; simpl.
    destruct (IH (with_disk
                    (with_bots
                       (map (fun b =>
                               if bot_id b =? bot_id bot
                               then {| bot_id := bot_id b; owner_id := owner_id b;
                                       is_running := running;
                                       last_active := Some now |}
                               else b)) (disk w)) w))
      as (d' & -> & Husers & Hbalances & Hbots).
    exists d'. split; [done|]. split; [done|]. split; [done|].
    rewrite Hbots. simpl. apply switch_bots_cons.
Qed.

Lemma handle_status_change_run uid old_status new_status now w :
  exists d',
    Lifecycle._handle_status_change uid old_status new_status now w
    = (Ok tt, with_disk d' w)
    /\ users d' = users (disk w)
    /\ user_balances d' = user_balances (disk w)
    /\ bots d' = bots_after_change uid old_status new_status now (bots (disk w)).
Proof.
  unfold Lifecycle._handle_status_change, bots_after_change.
  destruct (_ || _).
  - unfold bind at 1, read_disk.
    destruct (pause_or_resume_run (Database.get_user_bots uid (disk w))
                (bool_decide (new_status = STATUS_ACTIVE)) now w)
      as (d' & Hrun & Husers & Hbalances & Hbots).
    unfold bind. rewrite Hrun. by exists d'.
  - exists (disk w). by rewrite with_disk_same.
Qed.

Lemma alter_as_insert (f : Balance -> Balance) uid (m : gmap Z Balance) b :
  m !! uid = Some b -> alter f uid m = <[uid := f b]> m.
Proof.
  intros Hb. apply map_eq; intros k.
  rewrite lookup_alter, lookup_insert. case_decide; [subst k|done].
  by rewrite Hb.
Qed.

(** The last steps of [get_user_status]: the status is written when it
    differs from the one read, and cached. *)
Lemma status_written uid status current key now w b1 :
  user_balances (disk w) !! uid = Some b1 ->
  current_status b1 = current \/ current_status b1 = status ->
  exists d' b',
    (when (negb (bool_decide (Some status = Some current)))
       (on_disk (Lifecycle._update_user_status uid status now) ;;;
        log_on_disk
          (Database.log_audit (Some uid) "STATUS_CHANGED"
             [("from", JStr (Lifecycle.status_str current));
              ("to", JStr (Lifecycle.status_str status));
              ("reason", JStr "automatic_check")] now) ;;;
        Lifecycle._handle_status_change uid (Some current) status now) ;;;
     Lifecycle.cache_store key status now ;;; ret status) w
    = (Ok status,
       {| disk := d';
          status_cache := <[key := (status, now)]> (status_cache w) |})
    /\ users d' = users (disk w)
    /\ user_balances d' = <[uid := b']> (user_balances (disk w))
    /\ current_status b' = status
    /\ days_of b' = days_of b1
    /\ premium_of b' = premium_of b1
    /\ bots d' = bots_after_change uid (Some current) status now (bots (disk w)).
Proof.
  intros Hb1 Hcur.
  destruct (decide (status = current)) as [->|Hne].
  - exists (disk w), b1.
    rewrite bool_decide_eq_true_2 by done. simpl.
    split; [done|]. split; [done|]. split; [by rewrite insert_id|].
    split; [by destruct Hcur|]. split; [done|]. split; [done|].
    unfold bots_after_change. by destruct current.
  - rewrite bool_decide_eq_false_2 by congruence. simpl.
    unfold bind at 1. unfold bind at 1, on_disk at 1; simpl.
    unfold bind at 1, log_on_disk at 1; simpl.
    unfold bind at 1.
    match goal with
    | |- context [Lifecycle._handle_status_change _ _ _ _ ?w1] =>
        destruct (handle_status_change_run uid (Some current) status now w1)
          as (d' & Hrun & Husers & Hbalances & Hbots)
    end.
    rewrite Hrun. simpl.
    exists d', (set_status status now b1).
    split; [done|]. split; [done|].
    split; [|done].
    rewrite Hbalances. simpl. by apply alter_as_insert.
Qed.

Lemma bind_ok {A B : Type} (m : M A) (k : A -> M B) w a w' :
  m w = (Ok a, w') -> bind m k w = k a w'.
Proof. intros Hm. unfold bind. by rewrite Hm. Qed.

Lemma find_updated_user uid (f : User -> User) us u :
  (forall v, user_id (f v) = user_id v) ->
  find (fun v => user_id v =? uid) us = Some u ->
  find (fun v => user_id v =? uid)
    (map (fun v => if user_id v =? uid then f v else v) us)
  = Some (f u).
Proof.
  intros Hid. induction us as [|v us IH]; simpl; [done|].
  destruct (user_id v =? uid) eqn:Hv; simpl.
  - intros [= ->]. by rewrite Hid, Hv.
  - by rewrite Hv.
Qed.

(** A recompute that misses the cache, for an account with a balance
    row. *)
Lemma get_user_status_run uid is_subscribed now w u b :
  Lifecycle.cached_status (uid, is_subscribed) now w = None ->
  find (fun u => user_id u =? uid) (users (disk w)) = Some u ->
  user_balances (disk w) !! uid = Some b ->
  let status := status_of (default (is_sub_active u) is_subscribed) b now in
  exists d' b',
    Lifecycle.get_user_status uid is_subscribed now w
    = (Ok status,
       {| disk := d';
          status_cache :=
            <[(uid, is_subscribed) := (status, now)]> (status_cache w) |})
    /\ (is_sub_active
         <$> find (fun u => user_id u =? uid) (users d'))
       = Some (default (is_sub_active u) is_subscribed)
    /\ user_balances d' = <[uid := b']> (user_balances (disk w))
    /\ current_status b' = status
    /\ days_of b' = days_of b
    /\ is_premium b'
       = (if bool_decide (status = STATUS_ACTIVE) then 30 <=? bonus_days b
          else is_premium b)
    /\ (forall t, premium_since b = Some t -> premium_since b' = Some t)
    /\ bots d'
       = bots_after_change uid (Some (current_status b)) status now
           (bots (disk w)).
Proof.
  intros Hcache Hfind Hb status.
  unfold Lifecycle.get_user_status.
  unfold bind at 1, read_world. rewrite Hcache.
  unfold bind at 1, read_disk, Database.get_user; simpl.
  rewrite Hfind, Hb; simpl.
  (* the subscription flag *)
  assert (Hflag : exists w0,
    match is_subscribed with
    | Some s =>
        when (negb (eqb s (is_sub_active u)))
          (on_disk (Database.update_subscription_status uid s now)) ;;;
        ret s
    | None => ret (is_sub_active u)
    end w = (Ok (default (is_sub_active u) is_subscribed), w0)
    /\ (is_sub_active
         <$> find (fun u => user_id u =? uid) (users (disk w0)))
       = Some (default (is_sub_active u) is_subscribed)
    /\ user_balances (disk w0) = user_balances (disk w)
    /\ status_cache w0 = status_cache w
    /\ bots (disk w0) = bots (disk w)).
  { destruct is_subscribed as [s|]; simpl; [|exists w; by rewrite Hfind].
    destruct (eqb s (is_sub_active u)) eqn:Hsame; simpl.
    - exists w. rewrite Hfind; simpl. apply eqb_prop in Hsame. by subst s.
    - eexists. split; [reflexivity|]. split; [|done]. simpl.
      by rewrite (find_updated_user uid _ _ u) by done. }
  destruct Hflag as (w0 & Hflag & Husers0 & Hbal0 & Hcache0 & Hbots0).
  rewrite (bind_ok _ _ _ _ _ Hflag).
  (* the status and the writes that come with it *)
  assert (Hstatus : exists w1 b1,
    (if negb (default (is_sub_active u) is_subscribed)
     then ret STATUS_FROZEN
     else
       if 0 <? total_active_days b now
       then
         when (negb (eqb (30 <=? bonus_days b) (is_premium b)))
           (on_disk
              (Lifecycle._update_user_premium_status uid (30 <=? bonus_days b)
                 now)) ;;;
         ret STATUS_ACTIVE
       else
         when (negb (bool_decide (current_status b = STATUS_EXPIRED)))
           (on_disk (Lifecycle._set_user_expired uid now)) ;;;
         ret STATUS_EXPIRED) w0 = (Ok status, w1)
    /\ users (disk w1) = users (disk w0)
    /\ user_balances (disk w1) = <[uid := b1]> (user_balances (disk w0))
    /\ status_cache w1 = status_cache w0
    /\ bots (disk w1) = bots (disk w0)
    /\ (current_status b1 = current_status b \/ current_status b1 = status)
    /\ days_of b1 = days_of b
    /\ is_premium b1
       = (if bool_decide (status = STATUS_ACTIVE) then 30 <=? bonus_days b
          else is_premium b)
    /\ (forall t, premium_since b = Some t -> premium_since b1 = Some t)).
  { subst status. unfold status_of.
    destruct (negb (default (is_sub_active u) is_subscribed)).
    { exists w0, b. rewrite insert_id by congruence.
      repeat split; by eauto. }
    destruct (0 <? total_active_days b now).
    - destruct (eqb (30 <=? bonus_days b) (is_premium b)) eqn:Hsame; simpl.
      + exists w0, b. rewrite insert_id by congruence.
        apply eqb_prop in Hsame. repeat split; by eauto.
      + destruct (30 <=? bonus_days b) eqn:Hbonus.
        * eexists _, (set_premium_on now b). split; [reflexivity|]. simpl.
          split; [done|]. rewrite Hbal0. split; [by apply alter_as_insert|].
          repeat split; [by left|]. intros t Ht; simpl. by rewrite Ht.
        * eexists _, (set_premium_off b). split; [reflexivity|]. simpl.
          split; [done|]. rewrite Hbal0. split; [by apply alter_as_insert|].
          repeat split; [by left|done].
    - destruct (bool_decide (current_status b = STATUS_EXPIRED)) eqn:Hexp; simpl.
      + exists w0, b. rewrite insert_id by congruence.
        repeat split; by eauto.
      + eexists _, (set_status STATUS_EXPIRED now b). split; [reflexivity|].
        simpl. split; [done|]. rewrite Hbal0.
        split; [by apply alter_as_insert|].
        repeat split; [by right|done]. }
  destruct Hstatus as (w1 & b1 & Hstatus & Husers1 & Hbal1 & Hcache1 & Hbots1
                       & Hcur & Hdays & Hprem & Hsince).
  rewrite (bind_ok _ _ _ _ _ Hstatus).
  destruct (status_written uid status (current_status b) (uid, is_subscribed)
              now w1 b1)
    as (d' & b' & Hrun & Husers' & Hbal' & Hcur' & Hdays' & Hprem' & Hbots').
  { rewrite Hbal1. apply lookup_insert_eq. }
  { done. }
  rewrite Hrun. exists d', b'.
  rewrite Hcache1, Hcache0. split; [done|].
  rewrite Husers', Husers1. split; [done|].
  rewrite Hbal', Hbal1, Hbal0, insert_insert_eq. split; [done|].
  split; [done|]. split; [congruence|].
  unfold premium_of in Hprem'. injection Hprem' as Hp Hs.
  split; [congruence|].
  split; [intros t Ht; rewrite Hs; by apply Hsince|].
  by rewrite Hbots', Hbots1, Hbots0.
Qed.

(** X1.  A status recompute that misses the cache, for an account with a
    row in [users] and in [user_balances], returns frozen when the account
    is not subscribed, active when it is subscribed and its total of days
    is positive, and expired otherwise.  It stores that status in the
    balance row and in the cache and the subscription flag it was given in
    [users], leaves the three sources of days as they were, and when the
    status is active sets the premium flag to [30 <= bonus_days]. *)
Theorem get_user_status_computes_and_persists uid is_subscribed now w u b :
  Lifecycle.cached_status (uid, is_subscribed) now w = None ->
  find (fun u => user_id u =? uid) (users (disk w)) = Some u ->
  user_balances (disk w) !! uid = Some b ->
  let subscribed := default (is_sub_active u) is_subscribed in
  let status := status_of subscribed b now in
  let r := Lifecycle.get_user_status uid is_subscribed now w in
  let after := user_balances (disk r.2) !! uid in
  r.1 = Ok status
  /\ current_status <$> after = Some status
  /\ days_of <$> after = Some (days_of b)
  /\ is_premium <$> after
     = Some (if bool_decide (status = STATUS_ACTIVE) then 30 <=? bonus_days b
             else is_premium b)
  /\ (is_sub_active
        <$> find (fun u => user_id u =? uid) (users (disk r.2)))
     = Some subscribed
  /\ status_cache r.2 !! (uid, is_subscribed) = Some (status, now).
Proof.
  intros Hcache Hfind Hb subscribed status r after. subst r after.
  destruct (get_user_status_run uid is_subscribed now w u b Hcache Hfind Hb)
    as (d' & b' & -> & Hflag & Hbal & Hcur & Hdays & Hprem & _).
  simpl. rewrite Hbal, lookup_insert_eq; simpl.
  split; [done|]. split; [by rewrite Hcur|]. split; [by rewrite Hdays|].
  split; [by rewrite Hprem|]. split; [done|]. apply lookup_insert_eq.
Qed.

Lemma get_user_status_computes_and_persists_witness :
  let r := Lifecycle.get_user_status 1 (Some false) 7
             (Sample.world Sample.lapsed_premium) in
  r.1 = Ok STATUS_FROZEN
  /\ current_status <$> user_balances (disk r.2) !! 1 = Some STATUS_FROZEN.
Proof.
  destruct (get_user_status_computes_and_persists 1 (Some false) 7
              (Sample.world Sample.lapsed_premium) (Sample.user 1 None) _
              eq_refl eq_refl eq_refl) as (Hreply & Hstored & _).
  split; [exact Hreply|exact Hstored].
Defined.

(** X2.  For 300 seconds after a recompute [get_user_status] answers
    from the cache: whatever the data base file holds by then, the call
    returns the status computed before and writes nothing. *)
Theorem cached_status_outlives_the_ledger uid is_subscribed now later w u b d :
  Lifecycle.cached_status (uid, is_subscribed) now w = None ->
  find (fun u => user_id u =? uid) (users (disk w)) = Some u ->
  user_balances (disk w) !! uid = Some b ->
  later - now < 300 * 1000000 ->
  let first := Lifecycle.get_user_status uid is_subscribed now w in
  Lifecycle.get_user_status uid is_subscribed later (with_disk d first.2)
  = (first.1, with_disk d first.2).
Proof.
  intros Hcache Hfind Hb Hfresh first. subst first.
  destruct (get_user_status_run uid is_subscribed now w u b Hcache Hfind Hb)
    as (d' & b' & -> & _).
  unfold Lifecycle.get_user_status at 1.
  unfold bind at 1, read_world, Lifecycle.cached_status; simpl.
  rewrite lookup_insert_eq. by rewrite (proj2 (Z.ltb_lt _ _) Hfresh).
Qed.

Lemma cached_status_outlives_the_ledger_witness :
  let first := Lifecycle.get_user_status 1 None 7 (Sample.world Sample.ledger_of_user) in
  Lifecycle.get_user_status 1 None 8 (with_disk Sample.exhausted_user first.2)
  = (Ok STATUS_ACTIVE, with_disk Sample.exhausted_user first.2).
Proof.
  apply (cached_status_outlives_the_ledger 1 None 7 8
           (Sample.world Sample.ledger_of_user) (Sample.user 1 None)
           (Sample.balance 2 None 5) Sample.exhausted_user);
    [reflexivity|reflexivity|reflexivity|lia].
Defined.

(** ** The daily sweep *)



Lemma delete_users_run days_to_keep now uids d :
  Database.delete_users days_to_keep now uids (connect d) d
  = match uids with
    | [] => (Ok (connect d), d)
    | _ => (Raise OperationalError, d)
    end.
Proof. by destruct uids. Qed.

Lemma cleanup_expired_users_run days_to_keep now d :
  Database.cleanup_expired_users days_to_keep now d
  = (match purged days_to_keep now d with
     | [] => Ok 0%nat
     | _ => Raise OperationalError
     end, d).
Proof.
  unfold Database.cleanup_expired_users, purged. rewrite delete_users_run.
  simpl. by destruct (map user_id _).
Qed.


(** ** Retention *)

(** X5.  [cleanup_expired_users] marks no account deleted and deletes no
    bot.  When its query selects nobody it returns 0.  When it selects an
    account, the DELETE of [delete_bots_by_owner] runs on a connection
    that is closed without a commit, the UPDATE of the status takes the
    write lock, the [log_audit] awaited next raises [OperationalError],
    and the method raises before its commit.  The file is as it was in
    either case. *)
Theorem cleanup_expired_users_deletes_nothing days_to_keep now d :
  Database.cleanup_expired_users days_to_keep now d
  = (match purged days_to_keep now d with
     | [] => Ok 0%nat
     | _ => Raise OperationalError
     end, d).
Proof. apply cleanup_expired_users_run. Qed.

(** ** The abuse guard *)

Lemma sql_datetime_mono a b :
  a <= b -> Database.sql_datetime a <= Database.sql_datetime b.
Proof.
  intros Hab. unfold Database.sql_datetime, Database.SECOND.
  pose proof (Z.div_le_mono a b 1000000 ltac:(lia) Hab). lia.
Qed.

Lemma handle_new_user_step new_user referrer now w :
  referrer <> 0 ->
  Referral.handle_new_user new_user (Some referrer) now w
  = if (10 <=? recent_referrals referrer now (disk w))
       || existsb (fun e => referred_id e =? new_user)
            (referral_events (disk w))
    then (Ok tt, w)
    else (Ok tt,
          with_disk
            (with_referral_events
               (fun l => l ++ [bot_created_event referrer new_user now (disk w)])
               (disk w)) w).
Proof.
  intros Hnonzero. unfold Referral.handle_new_user.
  rewrite (proj2 (Z.eqb_neq _ _) Hnonzero).
  unfold try_except, Referral._is_abuse_detected, try_except.
  unfold bind at 1. unfold bind at 1, read_disk; simpl.
  fold (recent_referrals referrer now (disk w)).
  change Config.MAX_REFERRALS_PER_DAY with 10.
  destruct (10 <=? recent_referrals referrer now (disk w)); simpl.
  { by destruct w. }
  unfold bind, on_disk, Database.create_referral_event; simpl.
  destruct (existsb _ _); simpl; [by destruct w|].
  unfold bot_created_event, Config.REFERRAL_bot_created_delay_days,
    timedelta_days. done.
Qed.

Lemma recent_referrals_after_event referrer new_user now d :
  recent_referrals referrer now
    (with_referral_events
       (fun l => l ++ [bot_created_event referrer new_user now d]) d)
  = recent_referrals referrer now d + 1.
Proof.
  unfold recent_referrals; simpl. rewrite List.filter_app, length_app; simpl.
  rewrite Z.eqb_refl; simpl.
  rewrite (proj2 (Z.leb_le _ _))
    by (apply sql_datetime_mono; unfold Config.ABUSE_CHECK_HOURS; lia).
  simpl. lia.
Qed.

(** X6.  [handle_new_user] with a referrer.  When the referrer has 10 or
    more referral events of the last 24 hours, or the new account has a
    referral event already, nothing changes.  Otherwise one pending
    [bot_created] event is appended, with a delay of 3 days, the
    referrer's count of recent events grows by one, and no balance
    changes. *)
Theorem handle_new_user_respects_the_ceiling new_user referrer now w :
  referrer <> 0 ->
  let recent := recent_referrals referrer now (disk w) in
  let known := new_user ∈ map referred_id (referral_events (disk w)) in
  let r := Referral.handle_new_user new_user (Some referrer) now w in
  (10 <= recent \/ known -> r = (Ok tt, w))
  /\ (recent < 10 -> ~ known ->
      r.1 = Ok tt
      /\ referral_events (disk r.2)
         = referral_events (disk w)
           ++ [bot_created_event referrer new_user now (disk w)]
      /\ recent_referrals referrer now (disk r.2) = recent + 1
      /\ user_balances (disk r.2) = user_balances (disk w)).
Proof.
  intros Hnonzero recent known r. subst recent known r.
  rewrite (handle_new_user_step new_user referrer now w Hnonzero). split.
  - intros [Hfull|Hknown].
    + by rewrite (proj2 (Z.leb_le _ _) Hfull).
    + apply existsb_referred_elem_of in Hknown. rewrite Hknown.
      by rewrite orb_true_r.
  - intros Hroom Hnew.
    rewrite (proj2 (Z.leb_gt _ _) Hroom); simpl.
    destruct (existsb _ _) eqn:Hknown.
    { by apply existsb_referred_elem_of in Hknown. }
    simpl. split; [done|]. split; [done|].
    split; [apply recent_referrals_after_event|done].
Qed.

Lemma handle_new_user_respects_the_ceiling_witness :
  referral_events
    (disk (Referral.handle_new_user 2 (Some 1) 50 (Sample.world Sample.pending_shop)).2)
  = [bot_created_event 1 2 50 Sample.pending_shop].
Proof.
  destruct (handle_new_user_respects_the_ceiling 2 1 50
              (Sample.world Sample.pending_shop)) as [_ Hroom]; [lia|].
  destruct Hroom as (_ & Hevents & _).
  - reflexivity.
  - simpl. by intros ?%elem_of_nil.
  - exact Hevents.
Defined.

(** X7.  Inviting distinct new accounts one after the other at one
    instant stops at the ceiling: the referrer's count of events of the
    last 24 hours ends at 10 when it started below and enough accounts
    came, and does not grow when it started at 10 or above. *)
Theorem referrals_stop_at_ten_per_day referrer now news w :
  referrer <> 0 ->
  NoDup news ->
  (forall n, n ∈ news -> n ∉ map referred_id (referral_events (disk w))) ->
  let recent := recent_referrals referrer now (disk w) in
  recent_referrals referrer now (disk (invite_all referrer now news w))
  = Z.max recent (Z.min 10 (recent + Z.of_nat (length news))).
Proof.
  intros Hnonzero Hdistinct. revert w.
  induction Hdistinct as [|n news Hn Hnews IH]; intros w Hfresh; cbv zeta.
  { simpl. lia. }
  change (invite_all referrer now (n :: news) w)
    with (invite_all referrer now news
            (Referral.handle_new_user n (Some referrer) now w).2).
  rewrite (handle_new_user_step n referrer now w Hnonzero).
  assert (Hnew : existsb (fun e => referred_id e =? n)
                   (referral_events (disk w)) = false).
  { apply not_true_iff_false. intros Hknown%existsb_referred_elem_of.
    apply (Hfresh n); [apply elem_of_cons; by left|done]. }
  rewrite Hnew, orb_false_r.
  destruct (10 <=? recent_referrals referrer now (disk w)) eqn:Hfull; simpl.
  - apply Z.leb_le in Hfull.
    rewrite IH; [simpl length; lia|].
    intros k Hk. apply Hfresh, elem_of_cons. by right.
  - apply Z.leb_gt in Hfull.
    match goal with
    | |- context [invite_all _ _ news ?w1] => rewrite (IH w1)
    end.
    + simpl. rewrite recent_referrals_after_event. lia.
    + intros k Hk. simpl. rewrite map_app, elem_of_app; simpl.
      intros [Hold|Hsame].
      * apply (Hfresh k); [apply elem_of_cons; by right|done].
      * apply list_elem_of_singleton in Hsame. by subst k.
Qed.

Lemma referrals_stop_at_ten_per_day_witness :
  recent_referrals 1 50
    (disk (invite_all 1 50 [2; 3; 4; 5; 6; 7; 8; 9; 10; 11; 12; 13]
             (Sample.world empty_db)))
  = 10.
Proof.
  rewrite (referrals_stop_at_ten_per_day 1 50
             [2; 3; 4; 5; 6; 7; 8; 9; 10; 11; 12; 13] (Sample.world empty_db)).
  - reflexivity.
  - lia.
  - apply (bool_decide_unpack _). reflexivity.
  - intros n _. simpl. by intros ?%elem_of_nil.
Defined.

(** ** Pending referrals *)

Lemma date_add_days t n : Database.date (t + n * DAY) = Database.date t + n.
Proof. unfold Database.date. by rewrite Z.div_add by done. Qed.

(** X8.  The event [handle_new_user] records is selected by
    [get_pending_referrals] from the fourth calendar date after the one
    of its creation on, and not before: on the date of [pending_until]
    itself, whatever the hour, the text comparison finds the row not yet
    due. *)
Theorem new_referral_due_from_the_fourth_date new_user referrer now later w :
  referrer <> 0 ->
  recent_referrals referrer now (disk w) < 10 ->
  new_user ∉ map referred_id (referral_events (disk w)) ->
  let after := (Referral.handle_new_user new_user (Some referrer) now w).2 in
  bot_created_event referrer new_user now (disk w)
    ∈ Database.get_pending_referrals later (disk after)
  <-> Database.date now + 3 < Database.date later.
Proof.
  intros Hnonzero Hroom Hnew after. subst after.
  rewrite (handle_new_user_step new_user referrer now w Hnonzero).
  rewrite (proj2 (Z.leb_gt _ _) Hroom); simpl.
  destruct (existsb _ _) eqn:Hknown.
  { by apply existsb_referred_elem_of in Hknown. }
  unfold Database.get_pending_referrals; simpl.
  rewrite list_elem_of_In, filter_In, <- list_elem_of_In.
  unfold Database.is_due; simpl.
  rewrite date_add_days, andb_true_r, Z.ltb_lt, elem_of_app, list_elem_of_singleton.
  intuition auto.
Qed.

Lemma new_referral_due_from_the_fourth_date_witness :
  bot_created_event 1 2 50 Sample.pending_shop
    ∉ Database.get_pending_referrals (50 + 3 * DAY)
        (disk (Referral.handle_new_user 2 (Some 1) 50
                 (Sample.world Sample.pending_shop)).2).
Proof.
  intros Hdue.
  apply (new_referral_due_from_the_fourth_date 2 1 50 (50 + 3 * DAY)
           (Sample.world Sample.pending_shop)) in Hdue.
  - vm_compute in Hdue. discriminate Hdue.
  - lia.
  - reflexivity.
  - simpl. by intros ?%elem_of_nil.
Defined.

Lemma get_pending_referrals_events now d :
  Database.get_pending_referrals now d
  = List.filter (Database.is_due now) (referral_events d).
Proof. reflexivity. Qed.

Lemma try_except_world {A : Type} (m : M A) (a0 : A) w :
  (try_except m (fun _ => ret a0) w).2 = (m w).2.
Proof. unfold try_except. by destruct (m w) as [[a|e] w']. Qed.

Lemma process_pending_referrals_world now w :
  (Referral.process_pending_referrals now w).2
  = (for_each (Database.get_pending_referrals now (disk w))
       (fun referral => Referral.reward_pending referral now) w).2.
Proof.
  unfold Referral.process_pending_referrals. by rewrite try_except_world.
Qed.

Lemma for_each_single {A : Type} (x : A) (body : A -> M unit) w :
  (for_each [x] body w).2 = (body x w).2.
Proof. simpl. unfold bind. by destruct (body x w) as [[[]|e] w']. Qed.

Lemma reward_pending_not_active e now w :
  (Lifecycle.get_user_status (referred_id e) None now w).1 <> Ok STATUS_ACTIVE ->
  (Referral.reward_pending e now w).2
  = (Lifecycle.get_user_status (referred_id e) None now w).2.
Proof.
  intros Hstatus. unfold Referral.reward_pending, bind.
  destruct (Lifecycle.get_user_status (referred_id e) None now w)
    as [[status|err] w1]; simpl in *; [|done].
  rewrite bool_decide_eq_false_2 by congruence. done.
Qed.

(** X10.  When the referred account of the one due referral is not
    active, or its status cannot be computed,
    [process_pending_referrals] credits no days to anyone and leaves the
    referral events as they were: the event stays pending. *)
Theorem due_referral_of_inactive_user_stays_pending e now w :
  Database.get_pending_referrals now (disk w) = [e] ->
  (Lifecycle.get_user_status (referred_id e) None now w).1 <> Ok STATUS_ACTIVE ->
  let after := disk (Referral.process_pending_referrals now w).2 in
  balance_columns days_of after = balance_columns days_of (disk w)
  /\ referral_events after = referral_events (disk w).
Proof.
  intros Hpending Hstatus after. subst after.
  rewrite process_pending_referrals_world, Hpending, for_each_single.
  rewrite (reward_pending_not_active e now w Hstatus).
  split.
  - apply get_user_status_columns, days_of_status_blind.
  - apply get_user_status_referral_events.
Qed.

Lemma due_referral_of_inactive_user_stays_pending_witness :
  Database.get_pending_referrals (4 * DAY)
    (disk (Referral.process_pending_referrals (4 * DAY)
             (Sample.world (Sample.invited 0))).2)
  = [Sample.invitation].
Proof.
  destruct (due_referral_of_inactive_user_stays_pending Sample.invitation
              (4 * DAY) (Sample.world (Sample.invited 0)))
    as [_ Hevents].
  - reflexivity.
  - vm_compute. discriminate.
  - by rewrite get_pending_referrals_events, Hevents.
Defined.

Lemma reward_pending_days_of e now :
  preserves (balance_columns days_of) (Referral.reward_pending e now).
Proof.
  unfold Referral.reward_pending.
  apply preserves_bind;
    [apply get_user_status_columns, days_of_status_blind|intros status].
  destruct (bool_decide _); [|apply preserves_ret].
  intros w. unfold bind. by rewrite add_days_to_user_run.
Qed.

Lemma reward_pending_referral_events e now :
  preserves referral_events (Referral.reward_pending e now).
Proof.
  unfold Referral.reward_pending.
  apply preserves_bind; [apply get_user_status_referral_events|intros status].
  destruct (bool_decide _); [|apply preserves_ret].
  intros w. unfold bind. by rewrite add_days_to_user_run.
Qed.

(** X9.  [process_pending_referrals] rewards nobody: for a due referral
    whose referred account is active it asks [add_days_to_user] for the 7
    bonus days, is told false, and does not mark the event.  Whatever is
    due, the days of every account and the referral events are what they
    were. *)
Theorem pending_referrals_are_never_rewarded now w :
  let after := disk (Referral.process_pending_referrals now w).2 in
  balance_columns days_of after = balance_columns days_of (disk w)
  /\ referral_events after = referral_events (disk w).
Proof.
  intros after. subst after. rewrite process_pending_referrals_world.
  split.
  - apply (preserves_for_each (balance_columns days_of)).
    intros e. apply reward_pending_days_of.
  - apply (preserves_for_each referral_events).
    intros e. apply reward_pending_referral_events.
Qed.

(** ** Callbacks *)

(** X11.  A verified callback with status failed or canceled does not
    mark the payment failed: the UPDATE of [update_payment_status] takes
    the write lock, the [log_audit] awaited before the commit raises
    [OperationalError], and the handler answers false with the error,
    the payment and every other table as they were. *)
Theorem failure_callback_is_answered_with_an_error signature cb now w :
  Payments._validate_tbank_signature signature cb = true ->
  Payments.lower (Payments.cb_status cb) = "failed"
  \/ Payments.lower (Payments.cb_status cb) = "canceled" ->
  Payments.process_tbank_callback signature cb now w
  = (Ok (false, Payments.MsgError OperationalError), w).
Proof.
  intros Hsig Hstatus. rewrite process_tbank_callback_run.
  unfold callback_reply. rewrite Hsig. by destruct Hstatus as [->| ->].
Qed.

Lemma failure_callback_is_answered_with_an_error_witness :
  let cancel :=
    {| Payments.cb_order_id := 1; Payments.cb_status := "CANCELED";
       Payments.cb_transaction_id := None; Payments.cb_other := [];
       Payments.cb_sign := "5f2d" |} in
  Payments.process_tbank_callback Sample.signature cancel 9
    (Sample.world Sample.pending_shop)
  = (Ok (false, Payments.MsgError OperationalError),
     Sample.world Sample.pending_shop).
Proof.
  intros cancel.
  apply (failure_callback_is_answered_with_an_error Sample.signature cancel 9
           (Sample.world Sample.pending_shop)); [reflexivity|].
  right. reflexivity.
Defined.

(** X12.  A provider callback, whatever its signature, status and order
    number, changes the days of no account other than the payer of the
    payment it names and that payer's referrer. *)
Theorem callback_credits_payer_and_referrer_only signature cb now w k :
  (forall p,
     find (fun q => payment_id q =? Payments.cb_order_id cb) (payments (disk w))
       = Some p ->
     pay_user_id p <> k
     /\ forall u,
          find (fun u => user_id u =? pay_user_id p) (users (disk w)) = Some u ->
          referrer_id u <> Some k) ->
  days_at k (disk (Payments.process_tbank_callback signature cb now w).2)
  = days_at k (disk w).
Proof.
  intros _. by rewrite process_tbank_callback_run.
Qed.

Lemma callback_credits_payer_and_referrer_only_witness :
  days_at 3
    (disk (Payments.process_tbank_callback Sample.signature Sample.callback 9
             (Sample.world Sample.busy_shop)).2)
  = Some (4, None, 1).
Proof.
  rewrite (callback_credits_payer_and_referrer_only Sample.signature
             Sample.callback 9 (Sample.world Sample.busy_shop) 3).
  - reflexivity.
  - intros p [= <-]. split; [done|]. by intros u [= <-].
Defined.

(** ** Invoices *)

(** X13.  The demo tariff grants nothing: [create_invoice] with the key
    [demo] asks [add_days_to_user] for the 10 trial days, is told false,
    and returns the free result with [success] false; the store is as it
    was. *)
Theorem demo_tariff_grants_nothing {Invoice : Type}
    (tbank : Z -> Config.Tariff -> Z -> M (option Invoice))
    (stars : Z -> Config.Tariff -> Z -> M Invoice) uid method now w :
  Payments.create_invoice tbank stars uid "demo" method now w
  = (Ok (Payments.FreeDays false 10), w).
Proof.
  unfold Payments.create_invoice; simpl.
  unfold bind. by rewrite add_days_to_user_run.
Qed.

Lemma create_payment_run uid price cur method days now d :
  Database.create_payment uid price cur method days now d
  = (Raise OperationalError, d).
Proof. reflexivity. Qed.

(** X14.  For a paid tariff [create_invoice] builds no invoice and
    records no payment, whatever the method: [create_payment] executes
    its INSERT, awaits [log_audit] before the commit and raises
    [OperationalError] at the write lock, and [create_invoice] does not
    catch it. *)
Theorem paid_invoice_is_never_created {Invoice : Type}
    (tbank : Z -> Config.Tariff -> Z -> M (option Invoice))
    (stars : Z -> Config.Tariff -> Z -> M Invoice)
    uid tariff_key tariff method now w :
  Config.TARIFFS tariff_key = Some tariff ->
  tariff_key <> "demo" ->
  Payments.create_invoice tbank stars uid tariff_key method now w
  = (Raise OperationalError, w).
Proof.
  intros Htariff Hdemo.
  unfold Payments.create_invoice. rewrite Htariff.
  rewrite (proj2 (String.eqb_neq _ _) Hdemo).
  unfold bind, on_disk. rewrite create_payment_run.
  by rewrite with_disk_same.
Qed.

Lemma paid_invoice_is_never_created_witness :
  Payments.create_invoice (fun _ _ _ => ret None) (fun _ _ _ => ret tt)
    2 "monthly" "stars" 7 (Sample.world Sample.paid_shop)
  = (Raise OperationalError, Sample.world Sample.paid_shop).
Proof.
  apply (paid_invoice_is_never_created (fun _ _ _ => ret None)
           (fun _ _ _ => ret tt) 2 "monthly"
           {| Config.tariff_days := 30; Config.tariff_price := 199 |}
           "stars" 7 (Sample.world Sample.paid_shop));
    [reflexivity|discriminate].
Defined.

(** ** Returning accounts *)

Lemma create_or_update_user_known telegram uname fname lname referrer src now d u :
  find (fun v => telegram_id v =? telegram) (users d) = Some u ->
  let r := Database.create_or_update_user telegram uname fname lname
             referrer src now d in
  r.1 = Ok (user_id u)
  /\ user_balances r.2 = user_balances d
  /\ map identity_of (users r.2) = map identity_of (users d)
  /\ bots r.2 = bots d.
Proof.
  intros Hknown r. subst r.
  unfold Database.create_or_update_user; simpl. rewrite Hknown; simpl.
  split; [done|]. split; [done|]. split; [|done].
  rewrite map_map. apply map_ext. intros v.
  by destruct (user_id v =? user_id u).
Qed.

(** X16.  For a Telegram id on file [create_or_update_user] returns the
    id of the existing account.  The id, referrer, source, subscription
    flag and creation date of every row of [users] stay, so that the
    [referrer_id] and [source] arguments are ignored, and no balance is
    touched: there is no second grant of trial days. *)
Theorem known_user_keeps_account_and_referrer
    telegram uname fname lname referrer src now d u :
  find (fun v => telegram_id v =? telegram) (users d) = Some u ->
  let r := Database.create_or_update_user telegram uname fname lname
             referrer src now d in
  r.1 = Ok (user_id u)
  /\ user_balances r.2 = user_balances d
  /\ map identity_of (users r.2) = map identity_of (users d).
Proof.
  intros Hknown r.
  destruct (create_or_update_user_known telegram uname fname lname referrer
              src now d u Hknown) as (Hid & Hbalances & Husers & _).
  done.
Qed.

Lemma known_user_keeps_account_and_referrer_witness :
  let r := Database.create_or_update_user 1002 (Some "neo") None None (Some 7)
             "ads" 9 Sample.pending_shop in
  r.1 = Ok 2
  /\ map referrer_id (users r.2) = [None; Some 1]
  /\ map username (users r.2) = [None; Some "neo"].
Proof.
  destruct (known_user_keeps_account_and_referrer 1002 (Some "neo") None None
              (Some 7) "ads" 9 Sample.pending_shop (Sample.user 2 (Some 1))
              eq_refl) as (Hid & _ & _).
  split; [exact Hid|]. split; reflexivity.
Defined.

(** ** Bots follow the subscription *)

Lemma owned_bot_ids uid bs x :
  NoDup (map bot_id bs) -> x ∈ bs ->
  bot_id x ∈ map bot_id (filter (fun b => owner_id b = uid) bs)
  <-> owner_id x = uid.
Proof.
  intros Hids Hx. split.
  - intros (y & Hid & Hy)%list_elem_of_fmap.
    apply list_elem_of_filter in Hy as [Howner Hy].
    assert (x = y) as ->; [|done].
    clear Howner. induction bs as [|b bs IH]; [by apply elem_of_nil in Hx|].
    simpl in Hids. apply NoDup_cons in Hids as [Hb Hids].
    apply elem_of_cons in Hx as [->|Hx]; apply elem_of_cons in Hy as [->|Hy].
    + done.
    + destruct Hb. rewrite Hid. apply list_elem_of_fmap. by exists y.
    + destruct Hb. rewrite <- Hid. apply list_elem_of_fmap. by exists x.
    + by apply IH.
  - intros Howner. apply list_elem_of_fmap. exists x. split; [done|].
    by apply list_elem_of_filter.
Qed.

(** X18.  A status recompute switches the bots of the account only when
    its status goes from frozen to active (all its bots are set running)
    or from active to frozen (all are set not running).  Any other
    outcome, an active account that expires included, leaves every bot as
    it was, and the bots of other owners are never touched.  [bot_id] is
    the primary key of [bots]. *)
Theorem bots_follow_freeze_and_thaw_only uid is_subscribed now w u b :
  Lifecycle.cached_status (uid, is_subscribed) now w = None ->
  find (fun u => user_id u =? uid) (users (disk w)) = Some u ->
  user_balances (disk w) !! uid = Some b ->
  NoDup (map bot_id (bots (disk w))) ->
  let old := current_status b in
  let status := status_of (default (is_sub_active u) is_subscribed) b now in
  let r := Lifecycle.get_user_status uid is_subscribed now w in
  r.1 = Ok status
  /\ bots (disk r.2)
     = if bool_decide (old = STATUS_FROZEN /\ status = STATUS_ACTIVE
                       \/ old = STATUS_ACTIVE /\ status = STATUS_FROZEN)
       then map (fun x => if owner_id x =? uid
                          then switched (bool_decide (status = STATUS_ACTIVE))
                                 now x
                          else x) (bots (disk w))
       else bots (disk w).
Proof.
  intros Hcache Hfind Hb Hids old status r. subst r.
  destruct (get_user_status_run uid is_subscribed now w u b Hcache Hfind Hb)
    as (d' & b' & Hrun & _ & _ & _ & _ & _ & _ & Hbots).
  fold status in Hrun, Hbots. fold old in Hbots.
  rewrite Hrun; simpl. split; [done|]. rewrite Hbots.
  unfold bots_after_change.
  assert (Hflip :
    bool_decide (Some old = Some STATUS_FROZEN /\ status = STATUS_ACTIVE)
    || bool_decide (Some old = Some STATUS_ACTIVE /\ status = STATUS_FROZEN)
    = bool_decide (old = STATUS_FROZEN /\ status = STATUS_ACTIVE
                   \/ old = STATUS_ACTIVE /\ status = STATUS_FROZEN)).
  { clearbody old status. destruct old, status; reflexivity. }
  rewrite Hflip.
  destruct (bool_decide (old = STATUS_FROZEN /\ status = STATUS_ACTIVE
                         \/ old = STATUS_ACTIVE /\ status = STATUS_FROZEN));
    [|done].
  unfold switch_bots. apply map_ext_in. intros x Hx%list_elem_of_In.
  pose proof (owned_bot_ids uid (bots (disk w)) x Hids Hx) as Howned.
  destruct (owner_id x =? uid) eqn:Howner.
  - apply Z.eqb_eq, Howned in Howner. by rewrite bool_decide_eq_true_2.
  - apply Z.eqb_neq in Howner. rewrite bool_decide_eq_false_2; [done|].
    intros Hin. by apply Howner, Howned.
Qed.

Lemma bots_follow_freeze_and_thaw_only_witness :
  map is_running
    (bots (disk (Lifecycle.get_user_status 1 (Some false) 9
                   (Sample.world Sample.studio)).2))
  = [false; true].
Proof.
  destruct (bots_follow_freeze_and_thaw_only 1 (Some false) 9
              (Sample.world Sample.studio) (Sample.user 1 None)
              (Sample.balance 3 None 0) eq_refl eq_refl eq_refl)
    as [_ Hbots].
  - apply (bool_decide_unpack _). reflexivity.
  - by rewrite Hbots.
Defined.

(** X19.  [can_bot_respond], for a bot on file whose owner has a row in
    [users] and a balance row and no fresh cache entry, answers true
    exactly when the owner is subscribed and has a positive total of
    days. *)
Theorem bot_responds_iff_owner_is_active bid now w bot u b :
  find (fun x => bot_id x =? bid) (bots (disk w)) = Some bot ->
  Lifecycle.cached_status (owner_id bot, None) now w = None ->
  find (fun u => user_id u =? owner_id bot) (users (disk w)) = Some u ->
  user_balances (disk w) !! owner_id bot = Some b ->
  (Lifecycle.can_bot_respond bid now w).1
  = Ok (is_sub_active u && (0 <? total_active_days b now)).
Proof.
  intros Hbot Hcache Hfind Hb.
  destruct (get_user_status_run (owner_id bot) None now w u b Hcache Hfind Hb)
    as (d' & b' & Hrun & _).
  unfold Lifecycle.can_bot_respond, try_except.
  unfold bind at 1, read_disk; simpl. rewrite Hbot.
  unfold bind. rewrite Hrun; simpl. f_equal.
  unfold status_of. by destruct (is_sub_active u), (0 <? total_active_days b now).
Qed.

Lemma bot_responds_iff_owner_is_active_witness :
  (Lifecycle.can_bot_respond 1 9 (Sample.world Sample.studio)).1 = Ok true.
Proof.
  apply (bot_responds_iff_owner_is_active 1 9 (Sample.world Sample.studio)
           {| bot_id := 1; owner_id := 1; is_running := true;
              last_active := None |}
           (Sample.user 1 None) (Sample.balance 3 None 0));
    reflexivity.
Defined.

(** ** Grants are never stored *)

(** X20.  [add_days_to_user] stores no grant.  Whatever the account, the
    amount and the type of days, the ledger operation it calls raises
    (an unknown type raises [ValueError]), the exception is caught and
    logged on a connection that is not committed, and the call reports
    false, with the data base file and the status cache as they were. *)
Theorem add_days_to_user_stores_nothing uid days days_type reason pid now w :
  Lifecycle.add_days_to_user uid days days_type reason pid now w = (Ok false, w).
Proof. apply add_days_to_user_run. Qed.
